(** * evently: the one-shot loader of feature-request issues

    A shallow embedding of [create-feature-issues.py].  The script reads a
    bearer token from the process environment, walks two literal catalogs of
    issue descriptors, posts each descriptor to the GitHub REST API through
    [requests.post], counts the calls that came back without an HTTP error
    and prints a summary.

    The script's effects are console output, calls to the remote API and
    Python exceptions.  They are modelled by a small monad over a trace of
    events; the remote service is an oracle that answers the n-th call. *)

From Stdlib Require Import String Ascii List ZArith Lia Bool Arith DecimalString.
Import ListNotations.

Open Scope list_scope.
Open Scope string_scope.

(** ** Values exchanged with the remote API *)

(** The values the script places in the JSON payload: a [str] or a list of
    [str]. *)
Inductive json_value : Type :=
| JString (s : string)
| JArray (items : list string).

(** A Python dict literal, in insertion order. *)
Definition dict (V : Type) : Type := list (string * V).

Inductive http_method : Type := POST.

(** What one call [requests.post(url, json=data, headers=headers)] hands to
    the transport. *)
Record Request : Type := mkRequest {
  req_method : http_method;
  req_url : string;
  req_json : dict json_value;
  req_headers : dict string
}.

(** The attributes of [requests.Response] the script or [raise_for_status]
    reads. *)
Record Response : Type := mkResponse {
  status_code : Z;
  reason : string;
  url : string;
  text : string
}.

(** The subclasses of [requests.exceptions.RequestException] the transport
    raises when no response arrives.  [HTTPError] is not among them: only
    [raise_for_status] raises it. *)
Inductive transport_failure : Type :=
| ConnectionError
| Timeout
| TooManyRedirects.

Inductive exception : Type :=
| HTTPError (msg : string) (response : Response)
| TransportError (kind : transport_failure) (msg : string)
| SystemExit (code : Z).

(** What the remote side does with one call: it answers, or the transport
    fails. *)
Inductive reply : Type :=
| Responds (r : Response)
| Fails (kind : transport_failure) (msg : string).

(** ** Effects *)

Inductive event : Type :=
| Printed (line : string)
| Posted (rq : Request).

Definition trace : Type := list event.

(** The k-th call to the API (counted from 0) receives [net k]. *)
Definition network : Type := nat -> reply.

Inductive outcome (A : Type) : Type :=
| Returns (a : A)
| Raises (e : exception).
Arguments Returns {A} a.
Arguments Raises {A} e.

(** A computation reads the network, extends the trace, and returns or
    raises. *)
Definition M (A : Type) : Type := network -> trace -> outcome A * trace.

Definition ret {A : Type} (a : A) : M A :=
  fun _ t => (Returns a, t).

Definition bind {A B : Type} (m : M A) (k : A -> M B) : M B :=
  fun net t =>
    match m net t with
    | (Returns a, t') => k a net t'
    | (Raises e, t') => (Raises e, t')
    end.

Definition raise {A : Type} (e : exception) : M A :=
  fun _ t => (Raises e, t).

Notation "x <- c1 ;; c2" := (bind c1 (fun x => c2))
  (at level 61, c1 at next level, right associativity).
Notation "c1 ;; c2" := (bind c1 (fun _ => c2))
  (at level 61, right associativity).

(** [try: body  except requests.exceptions.HTTPError as e: handler]: every
    other exception passes through. *)
Definition try_except_HTTPError {A : Type} (body : M A)
    (handler : string -> Response -> M A) : M A :=
  fun net t =>
    match body net t with
    | (Raises (HTTPError msg response), t') => handler msg response net t'
    | other => other
    end.

Definition posts (t : trace) : list Request :=
  flat_map (fun ev => match ev with Posted rq => [rq] | Printed _ => [] end) t.

Definition stdout (t : trace) : list string :=
  flat_map (fun ev => match ev with Printed s => [s] | Posted _ => [] end) t.

(** [print(line)] *)
Definition print (line : string) : M unit :=
  fun _ t => (Returns tt, (t ++ [Printed line])%list).

(** [requests.post(url, json=data, headers=headers)]: the call is recorded,
    and the reply for its position in the run decides whether a response is
    returned or a transport exception is raised. *)
Definition requests_post (target : string) (json : dict json_value)
    (headers : dict string) : M Response :=
  fun net t =>
    let rq := mkRequest POST target json headers in
    match net (length (posts t)) with
    | Responds r => (Returns r, (t ++ [Posted rq])%list)
    | Fails kind msg => (Raises (TransportError kind msg), (t ++ [Posted rq])%list)
    end.

(** [sys.exit(code)] *)
Definition sys_exit {A : Type} (code : Z) : M A :=
  raise (SystemExit code).

(** [str(n)] for the integers the script formats. *)
Definition str_of_nat (n : nat) : string :=
  NilEmpty.string_of_uint (Nat.to_uint n).

Definition str_of_Z (z : Z) : string :=
  NilZero.string_of_int (Z.to_int z).

(** [s * n] on strings. *)
Fixpoint str_repeat (s : string) (n : nat) : string :=
  match n with
  | O => ""
  | S n' => s ++ str_repeat s n'
  end.

(** [Response.raise_for_status] of the requests library, which the script
    calls to classify a response.  The library first builds an error
    message, a client-error one for a status in 400..499 and a server-error
    one for a status in 500..599, and raises [HTTPError] with it when there
    is one; every other status returns. *)
Definition http_error_msg (response : Response) : option string :=
  let code := status_code response in
  if (400 <=? code)%Z && (code <? 500)%Z then
    Some (str_of_Z code ++ " Client Error: " ++ reason response
            ++ " for url: " ++ url response)
  else if (500 <=? code)%Z && (code <? 600)%Z then
    Some (str_of_Z code ++ " Server Error: " ++ reason response
            ++ " for url: " ++ url response)
  else None.

Definition raise_for_status (response : Response) : M unit :=
  match http_error_msg response with
  | Some msg => raise (HTTPError msg response)
  | None => ret tt
  end.

(** ** The script *)

Definition REPO_OWNER : string := "nikola-golijanin".
Definition REPO_NAME : string := "evently".
Definition GITHUB_API_URL : string :=
  "https://api.github.com/repos/" ++ REPO_OWNER ++ "/" ++ REPO_NAME ++ "/issues".

(** [create_issue(title, body, labels, token)].  The [try] block covers the
    call to [requests.post] too; the handler is entered only for
    [HTTPError], which [raise_for_status] raises about the response just
    received, so the [response] the handler prints is that one. *)
Definition create_issue (title body : string) (labels : list string)
    (token : string) : M bool :=
  let headers :=
    [ ("Authorization", "Bearer " ++ token);
      ("Accept", "application/vnd.github+json");
      ("X-GitHub-Api-Version", "2022-11-28") ] in
  let data :=
    [ ("title", JString title);
      ("body", JString body);
      ("labels", JArray labels) ] in
  try_except_HTTPError
    (response <- requests_post GITHUB_API_URL data headers ;;
     raise_for_status response ;;
     print ("✅ Created: " ++ title) ;;
     ret true)
    (fun e response =>
       print ("❌ Failed to create " ++ title ++ ": " ++ e) ;;
       print ("   Response: " ++ text response) ;;
       ret false).

(** One entry of a catalog: a dict literal with the keys ["title"] and
    ["body"], the only keys the script reads. *)
Record request_dict : Type := mkRequestDict {
  title : string;
  body : string
}.

(** The double-quote character, for the bodies that contain it. *)
Definition dq : string := String (ascii_of_nat 34) EmptyString.

(** [get_domain_feature_requests()]: the thirteen domain feature requests. *)
Definition get_domain_feature_requests : list request_dict :=
  [
    {| title := "FR-001: Notifications Module";
       body := "## Problem
The system performs important actions (order confirmed, tickets issued, event canceled, event rescheduled) but never tells the user. There is no email, SMS, or push notification system.

## Domain Concept
A new **Notifications** bounded context that listens to integration events from all modules and dispatches user-facing messages through configurable channels (email, in-app, push).

## What should trigger notifications

| Trigger Event | Notification | Recipient |
|---------------|-------------|-----------|
| UserRegisteredIntegrationEvent | Welcome email | New user |
| OrderCreatedIntegrationEvent | Order confirmation with ticket details | Customer |
| TicketIssuedIntegrationEvent | Ticket with QR/barcode code | Customer |
| EventRescheduledIntegrationEvent | " ++ dq ++ "Your event has been rescheduled" ++ dq ++ " | All ticket holders |
| EventCancellationCompletedIntegrationEvent | " ++ dq ++ "Event canceled, refund processed" ++ dq ++ " | All ticket holders |
| PaymentRefundedDomainEvent | Refund confirmation | Customer |
| AttendeeCheckedInDomainEvent | Check-in confirmation | Attendee |
| Event reminder (scheduled) | " ++ dq ++ "Event starts tomorrow" ++ dq ++ " | All ticket holders |

## Module Structure
- Consumes integration events from all other modules
- Manages notification preferences per user (opt-in/out per channel)
- Tracks delivery status (sent, delivered, failed)
- Supports templates with variable substitution

**Priority:** 1 (Core Missing Feature)  
**Affected modules:** None changed. New module added.

See: docs/07-Feature-Requests.md" |};
    {| title := "FR-002: Waitlist When Sold Out";
       body := "## Problem
When a ticket type sells out, `TicketTypeSoldOutIntegrationEvent` fires but **nothing consumes it**. Customers who arrive late have no way to express interest.

## Domain Concept
When a ticket type is sold out, customers can join a waitlist. When inventory becomes available (ticket archived, capacity increased, order canceled), the system automatically offers tickets to waitlisted customers in FIFO order.

## Entities
- **WaitlistEntry** -- (CustomerId, TicketTypeId, EventId, Quantity, RequestedAtUtc, Status, OfferedAtUtc, ExpiresAtUtc)
- Status: `Waiting -> Offered -> Converted | Expired | Canceled`

## Business Rules
1. Customer can only join waitlist when `AvailableQuantity == 0`
2. One waitlist entry per customer per ticket type
3. When inventory becomes available, offer to next customer in queue
4. Offered customer has a time window (e.g., 30 minutes) to complete purchase
5. If offer expires, move to next customer in queue
6. Customer can cancel their waitlist position at any time

## New Endpoints
- `POST /waitlist` -- Join waitlist for a ticket type
- `GET /waitlist` -- Get customer's waitlist entries
- `DELETE /waitlist/{id}` -- Cancel waitlist entry
- `POST /waitlist/{id}/accept` -- Accept a waitlist offer (creates order)

**Priority:** 1 (Core Missing Feature)  
**Where it lives:** Ticketing module

See: docs/07-Feature-Requests.md" |};
    {| title := "FR-003: User-Initiated Refund Requests";
       body := "## Problem
Refund capability exists internally (`RefundPaymentCommand`, `Payment.Refund()`) but is only triggered by event cancellation via the saga. There is no way for a customer to request a refund themselves.

## Domain Concept
Customers can request refunds for their orders, subject to configurable refund policies. The system evaluates the request against the policy and either auto-approves, partially approves, or requires organizer review.

## Entities
- **RefundPolicy** -- (EventId, FullRefundBeforeDays, PartialRefundBeforeDays, PartialRefundPercentage, NonRefundableAfterDays)
- **RefundRequest** -- (OrderId, CustomerId, Reason, RequestedAtUtc, Status, ReviewedAtUtc, RefundAmount)
- Status: `Pending -> Approved | PartiallyApproved | Denied | Processed`

## Business Rules
1. Default refund policy: full refund up to 7 days before event, 50% up to 48 hours, non-refundable after
2. Organizers can customize refund policy per event
3. Ticket types can be marked as non-refundable (e.g., discounted tickets)
4. Refund auto-approves if within full-refund window
5. Partial refunds calculated based on policy
6. Refund triggers existing `Payment.Refund()` domain logic
7. Refunded tickets are archived

## New Endpoints
- `POST /refunds` -- Request refund for an order
- `GET /refunds` -- Get customer's refund requests
- `GET /refunds/{id}` -- Get refund request details

**Priority:** 1 (Core Missing Feature)  
**Affected modules:** Ticketing (new entities + endpoints), Events (RefundPolicy on Event or TicketType)

See: docs/07-Feature-Requests.md" |};
    {| title := "FR-004: Discount & Promo Codes";
       body := "## Problem
There is no discount mechanism. Every ticket purchase is at full price. Organizers cannot run promotions, early-bird pricing, or partner discounts.

## Domain Concept
Organizers create promo codes tied to events. Customers apply codes at checkout for percentage or fixed-amount discounts. Codes have usage limits, expiration dates, and optional restrictions.

## Entities
- **PromoCode** -- (Code, EventId, DiscountType, DiscountValue, MaxUses, CurrentUses, ValidFrom, ValidUntil, MinQuantity, ApplicableTicketTypeIds, IsActive)
- DiscountType: `Percentage | FixedAmount`
- **OrderDiscount** -- (OrderId, PromoCodeId, DiscountAmount)

## Business Rules
1. Promo code is unique per event
2. Code must be within valid date range
3. Code must not exceed max usage count
4. Percentage discount applies to each line item proportionally
5. Fixed amount discount applies to order total
6. Discount cannot reduce price below zero
7. Multiple codes per order: organizer-configurable (default: one code per order)
8. Discount tracked on OrderItem level for accurate refund calculations

## New Endpoints
- `POST /promo-codes` -- Create promo code (organizer)
- `GET /promo-codes?eventId=` -- List promo codes for event (organizer)
- `PUT /promo-codes/{id}/deactivate` -- Deactivate code
- `POST /promo-codes/validate` -- Validate code before checkout (customer)
- `PUT /carts/apply-promo` -- Apply promo code to cart

**Priority:** 1 (Core Missing Feature)  
**Where it lives:** Ticketing module

See: docs/07-Feature-Requests.md" |};
    {| title := "FR-005: Event Organizer Ownership";
       body := "## Problem
Events have no owner. The `Event` entity has no `OrganizerId` or `CreatedBy` field. Any user with the `ModifyEvents` permission can edit or cancel any event. There is no concept of " ++ dq ++ "my events" ++ dq ++ " for organizers.

## Domain Concept
Events are owned by the user who creates them (the organizer). Only the organizer (or administrators) can modify, publish, or cancel their events. Organizers can view analytics for their events.

## Changes Needed
- `Event` entity gets `OrganizerId` (Guid) property
- `CreateEventCommand` captures the current user as organizer
- All event mutation endpoints check `event.OrganizerId == currentUserId || isAdmin`
- New query: " ++ dq ++ "Get my events" ++ dq ++ " filtered by organizer

## Business Rules
1. The user who creates an event becomes its organizer
2. Only the organizer or an admin can publish, reschedule, or cancel the event
3. Organizers can view orders and attendance stats for their events
4. Future: organizer can delegate management to other users

## New Endpoints
- `GET /events/mine` -- Get events created by the current user

**Priority:** 1 (Core Missing Feature)  
**Affected modules:** Events (Event entity change), Users (possible Organizer role or ownership-based policies)

See: docs/07-Feature-Requests.md" |};
    {| title := "FR-006: Cart Inventory Reservation";
       body := "## Problem
The cart is a Redis-based wish list with a 20-minute TTL, but it does **not reserve inventory**. Two customers can add the last ticket to their carts simultaneously, and one will fail at checkout.

## Domain Concept
When a customer adds tickets to their cart, the system temporarily holds (reserves) the inventory. Reserved tickets are unavailable to other customers. If the cart expires or is cleared, the reservation is released.

## New Entity
- **InventoryReservation** -- (CustomerId, TicketTypeId, Quantity, ReservedAtUtc, ExpiresAtUtc)

## Changes Needed
- `AddItemToCartCommand` decrements `AvailableQuantity` and records a reservation
- `RemoveItemFromCartCommand` / `ClearCartCommand` releases reservation (increments back)
- Cart expiration (Redis TTL) triggers reservation release
- `CreateOrderCommand` converts reservation into permanent purchase (no double-decrement)

## Business Rules
1. Reservation lasts 20 minutes (matches cart TTL)
2. Reservation auto-releases on expiry via background job
3. Order creation consumes reservation (no additional quantity check needed)
4. If reservation expired before checkout, order creation falls back to standard pessimistic lock flow

**Priority:** 2 (Important Enhancement)  
**Affected modules:** Ticketing (cart service, ticket type repository, new background job)

See: docs/07-Feature-Requests.md" |};
    {| title := "FR-007: Ticket Transfers";
       body := "## Problem
Tickets are permanently bound to the customer who purchased them. If you buy a ticket and can't attend, you can't give it to a friend.

## Domain Concept
A ticket holder can transfer a ticket to another registered user. The transfer invalidates the original ticket code and generates a new one for the recipient. Transfer history is maintained for audit purposes.

## Entities
- **TicketTransfer** -- (TicketId, FromCustomerId, ToCustomerId, InitiatedAtUtc, CompletedAtUtc, Status)
- Status: `Pending -> Accepted | Declined | Canceled`

## Business Rules
1. Only the ticket owner can initiate a transfer
2. Recipient must be a registered user
3. Ticket cannot be transferred if already used (checked in)
4. Ticket cannot be transferred if event is canceled
5. Transfer generates a new ticket code (old one invalidated)
6. Pending transfers can be canceled by the sender
7. Recipient must explicitly accept the transfer
8. Transfer updates the Attendance module's ticket record (new AttendeeId)

## New Endpoints
- `POST /tickets/{id}/transfer` -- Initiate transfer (sender)
- `POST /transfers/{id}/accept` -- Accept transfer (recipient)
- `POST /transfers/{id}/decline` -- Decline transfer (recipient)
- `GET /transfers` -- Get transfer history

**Priority:** 2 (Important Enhancement)  
**Affected modules:** Ticketing (Ticket entity, new TicketTransfer entity), Attendance (update ticket ownership)

See: docs/07-Feature-Requests.md" |};
    {| title := "FR-008: Event Reviews & Ratings";
       body := "## Problem
After an event ends, there is no feedback mechanism. Organizers don't know how the event was perceived. Future attendees can't evaluate events based on past reviews.

## Domain Concept
After an event ends, attendees who checked in can leave a review with a rating and optional text. Reviews are tied to the Attendance module since only verified attendees can review.

## Entities
- **Review** -- (EventId, AttendeeId, Rating (1-5), Comment, CreatedAtUtc, UpdatedAtUtc)

## Business Rules
1. Only attendees who checked in can leave a review (verified attendance)
2. One review per attendee per event
3. Reviews can only be submitted after the event ends
4. Reviews can be edited within 30 days of the event
5. Rating is required (1-5 stars), comment is optional
6. Average rating aggregated into EventStatistics (new field)

## New Endpoints
- `POST /events/{id}/reviews` -- Submit review
- `PUT /events/{id}/reviews` -- Update review
- `GET /events/{id}/reviews` -- Get reviews for event (paginated)

**Priority:** 2 (Important Enhancement)  
**Where it lives:** Attendance module

See: docs/07-Feature-Requests.md" |};
    {| title := "FR-009: Recurring Events & Event Series";
       body := "## Problem
Every event is a standalone instance. Organizers who run weekly meetups, monthly concerts, or annual conferences must create each occurrence manually.

## Domain Concept
An event can belong to a series. A series defines a recurrence pattern (weekly, biweekly, monthly) and template properties. Individual occurrences can be generated from the series and then customized.

## Entities
- **EventSeries** -- (Title, Description, Location, CategoryId, RecurrencePattern, StartsAtUtc, EndsAtUtc)
- RecurrencePattern: `{ Type: Weekly|Biweekly|Monthly, DayOfWeek?, DayOfMonth?, Count? }`
- Events get optional `SeriesId` (Guid?) to link to parent series

## Business Rules
1. Creating a series generates N future event drafts based on recurrence pattern
2. Each occurrence is a full Event entity that can be individually modified
3. Series-level changes can propagate to future unmodified occurrences
4. Canceling a series cancels all future unpublished occurrences
5. Individual occurrences can be detached from the series

## New Endpoints
- `POST /event-series` -- Create series with recurrence pattern
- `GET /event-series/{id}` -- Get series with all occurrences
- `PUT /event-series/{id}` -- Update series (propagate to future events)
- `DELETE /event-series/{id}` -- Cancel series

**Priority:** 2 (Important Enhancement)  
**Where it lives:** Events module

See: docs/07-Feature-Requests.md" |};
    {| title := "FR-010: Venue Management";
       body := "## Problem
Location is a free-text string field on the Event entity. No structured venue data, no reusability across events, no capacity tracking.

## Domain Concept
Venues are first-class entities with structured address data, capacity limits, and reusability across events. Events reference a venue instead of storing a raw location string.

## Entities
- **Venue** -- (Name, Address, City, Country, Capacity, Description, Coordinates?)

## Business Rules
1. Events reference a Venue by ID (optional -- free-text location still supported for backward compatibility)
2. Venue capacity serves as an upper bound for total ticket quantity across all ticket types
3. Venues are reusable across events
4. Publishing an event validates total ticket quantity does not exceed venue capacity

## New Endpoints
- `POST /venues` -- Create venue
- `GET /venues` -- List venues (with search)
- `GET /venues/{id}` -- Get venue details
- `PUT /venues/{id}` -- Update venue

**Priority:** 3 (Advanced Feature)  
**Where it lives:** Events module

See: docs/07-Feature-Requests.md" |};
    {| title := "FR-011: Seating & Sections";
       body := "## Problem
All tickets are general admission. No concept of seats, rows, sections, or zones. For concerts, theaters, and conferences with assigned seating, this is essential.

## Domain Concept
Venues have sections (e.g., " ++ dq ++ "Floor" ++ dq ++ ", " ++ dq ++ "Balcony" ++ dq ++ ", " ++ dq ++ "VIP Area" ++ dq ++ "). Sections have rows and seats. Ticket types can be linked to sections. When purchasing, customers select specific seats or get auto-assigned.

## Entities
- **Section** -- (VenueId, Name, Capacity)
- **Seat** -- (SectionId, Row, Number, Status)
- Seat Status: `Available | Reserved | Sold | Blocked`

## Business Rules
1. Ticket types optionally map to sections
2. Seat selection happens during cart add or checkout
3. Selected seats are reserved (ties into FR-006 Cart Reservation)
4. Seat map can be returned via API for frontend rendering

**Priority:** 3 (Advanced Feature)  
**Depends on:** FR-010 (Venue Management), FR-006 (Cart Reservation)

See: docs/07-Feature-Requests.md" |};
    {| title := "FR-012: Analytics & Reporting";
       body := "## Problem
Only basic attendance statistics exist (tickets sold, checked in, duplicates). No revenue reporting, sales trends, conversion rates, or organizer dashboards.

## Domain Concept
Aggregate reporting across events owned by an organizer. Revenue breakdowns, sales velocity, attendance rates, and trends over time.

## Reports
- Revenue per event (total sales, refunds, net revenue)
- Sales velocity (tickets sold per day leading up to event)
- Conversion rate (views -> cart -> purchase)
- Attendance rate (tickets sold vs checked in)
- Category performance (which categories sell best)
- Promo code effectiveness (usage, revenue impact)

**Implementation approach:** Read model projections (same CQRS pattern as EventStatistics). Background jobs aggregate data from existing domain events.

**Priority:** 3 (Advanced Feature)  
**Depends on:** FR-005 (Event Organizer -- to scope reports to " ++ dq ++ "my events" ++ dq ++ ")

See: docs/07-Feature-Requests.md" |};
    {| title := "FR-013: Group Bookings";
       body := "## Problem
Each order is for one customer. There's no concept of group reservations where an organizer, company, or group leader books tickets for multiple people with a single transaction.

## Domain Concept
A group booking allows purchasing multiple tickets and assigning them to different attendees. The group leader manages the booking and can assign/reassign names to tickets.

## Entities
- **GroupBooking** -- (LeaderCustomerId, EventId, GroupName, Tickets[])
- Each ticket in the group gets an `AssignedTo` field (name/email)

## Business Rules
1. Group leader purchases N tickets in one order
2. Tickets initially unassigned (leader's name)
3. Leader can assign attendee details to each ticket before the event
4. Each assigned ticket generates a unique code for that attendee
5. Minimum group size configurable per event (e.g., 10+)
6. Optional group discount (ties into FR-004 Promo Codes)

## New Endpoints
- `POST /group-bookings` -- Create group booking
- `PUT /group-bookings/{id}/assign` -- Assign attendees to tickets
- `GET /group-bookings/{id}` -- Get group booking details

**Priority:** 3 (Advanced Feature)  
**Where it lives:** Ticketing module

See: docs/07-Feature-Requests.md" |}
  ].

(** [get_technical_feature_requests()]: the twelve technical feature requests. *)
Definition get_technical_feature_requests : list request_dict :=
  [
    {| title := "TFR-001: Replace Keycloak with ASP.NET Identity";
       body := "## Problem
Keycloak adds significant operational complexity. The entire integration boils down to user creation and JWT issuance, while authorization is already fully local (PostgreSQL).

## Proposal
Replace Keycloak with ASP.NET Core Identity + local JWT issuance.

## Why This is a Clean Swap
- `IIdentityProviderService` is already a clean abstraction
- `CustomClaimsTransformation` stays exactly the same
- Permission model (roles, permissions, role_permissions tables) stays exactly the same
- Only the Users module Infrastructure layer changes

## Benefits
- Removes Docker container dependency (800MB+ image)
- Removes Testcontainer in integration tests (~15-20s faster)
- Simplifies configuration
- Removes external service health check dependency

## What Changes

| Component | Current (Keycloak) | New (ASP.NET Identity) |
|-----------|-------------------|----------------------|
| User storage | Keycloak DB + local users table | Identity tables in users schema only |
| Password hashing | Keycloak | ASP.NET Identity (PBKDF2) |
| User registration | Keycloak Admin API call | `UserManager<T>.CreateAsync()` |
| Token issuance | Keycloak OIDC endpoint | Local JWT generation |
| Token validation | Keycloak OIDC metadata | Local key validation |
| Docker services | PostgreSQL + Redis + Keycloak | PostgreSQL + Redis |

## New Endpoints Needed
- `POST /users/login` -- Authenticate with email/password, return JWT + refresh token
- `POST /users/refresh` -- Refresh an expired JWT
- `POST /users/change-password`

**Priority:** 1 (High-Impact Improvement)  
**Risk:** Low. Clean abstraction boundary.

See: docs/08-Technical-Feature-Requests.md" |};
    {| title := "TFR-002: Stabilize MassTransit Version";
       body := "## Problem
The project uses `MassTransit 9.0.1-develop.45` -- a **pre-release development build**. Pre-release packages risk breaking changes, missing documentation, and bugs.

Additionally, `Newtonsoft.Json 13.0.5-beta1` is also a beta version.

## Proposal
1. Upgrade to the latest stable MassTransit 9.x release
2. Upgrade Newtonsoft.Json to the latest stable
3. Verify the PostgreSQL transport and saga state machine still work correctly
4. Run all integration tests after upgrade

## What to Check After Upgrade
- `CancelEventSaga` state persistence still works
- `IntegrationEventConsumer<T>` still receives messages
- Outbox/inbox processing still functions
- MassTransit auto-migration still runs

**Priority:** 1 (High-Impact Improvement)  
**Risk:** Low-medium. Test thoroughly.

See: docs/08-Technical-Feature-Requests.md" |};
    {| title := "TFR-003: Add Resilience with Polly";
       body := "## Problem
No resilience policies exist anywhere in the system. Database calls, Redis operations, HTTP calls, and MassTransit publishing all lack retry logic, circuit breakers, and timeout policies.

## Current Issues
- Redis connection failure is caught with a bare `catch` block -- no logging, no metrics
- Database transient errors cause immediate hard failures
- No circuit breaker to prevent cascading failures
- No timeout policies beyond default HTTP/DB timeouts

## Proposal
Add `Microsoft.Extensions.Http.Resilience` and `Microsoft.Extensions.Resilience` (built-in Polly v8 integration).

## Where to Add Resilience

| Component | Policy | Rationale |
|-----------|--------|-----------|
| Database calls | Retry (3x, exponential backoff) | Transient connection errors |
| Redis operations | Retry (2x) + Circuit breaker | Redis restart/network blip |
| MassTransit publishing | Retry (3x) | Message bus temporary unavailability |
| Keycloak/Identity HTTP calls | Retry + Timeout + Circuit breaker | External service dependency |
| Payment service | Retry + Timeout | External gateway |

**Priority:** 1 (High-Impact Improvement)

See: docs/08-Technical-Feature-Requests.md" |};
    {| title := "TFR-004: Expand Integration Test Coverage";
       body := "## Problem
Only 2 integration test examples exist (`RegisterUser`, `AddItemToCart`). For a project with 31 endpoints and complex cross-module flows, this is minimal coverage.

## Proposal
Build out integration tests for critical paths.

## Priority Test Scenarios
1. Full event lifecycle: Create -> Add ticket types -> Publish -> Verify cross-module propagation
2. Full purchase flow: Register user -> Add to cart -> Create order -> Verify tickets generated
3. Event cancellation saga: Cancel event -> Verify payments refunded + tickets archived + saga completes
4. Check-in flow: Issue ticket -> Check in -> Verify statistics updated
5. Duplicate/invalid check-in: Verify correct error responses and statistics tracking
6. Concurrent order creation: Multiple users buying last tickets -> verify no overselling
7. Cart expiration: Add items -> Wait for TTL -> Verify cart empty

## Infrastructure Improvements
- Add a `BaseIntegrationTest` with common helpers
- Add test data builders using Bogus/Faker for all entities
- Add assertion helpers for cross-module event propagation
- Consider adding `Respawner` for fast database cleanup between tests

**Priority:** 1 (High-Impact Improvement)

See: docs/08-Technical-Feature-Requests.md" |};
    {| title := "TFR-005: Add Rate Limiting";
       body := "## Problem
No rate limiting exists. Any client can flood the API with unlimited requests. Critical for:
- Login endpoint (brute force protection)
- Order creation (prevent abuse)
- Registration (prevent spam accounts)

## Proposal
Add ASP.NET Core's built-in rate limiting middleware (`Microsoft.AspNetCore.RateLimiting`).

## Rate Limiting Policies

| Policy | Applies to | Limit | Window |
|--------|-----------|-------|--------|
| `fixed-global` | All endpoints | 100 req | per minute per IP |
| `auth-strict` | `/users/login`, `/users/register` | 10 req | per minute per IP |
| `order-limit` | `POST /orders` | 5 req | per minute per user |
| `sliding-general` | All authenticated endpoints | 60 req | per minute per user |

**Priority:** 2 (API & Infrastructure Hardening)

See: docs/08-Technical-Feature-Requests.md" |};
    {| title := "TFR-006: Add API Versioning";
       body := "## Problem
API is hardcoded to " ++ dq ++ "v1" ++ dq ++ " in Swagger with no versioning infrastructure. If we need to make breaking changes to endpoints, there's no mechanism to maintain backward compatibility.

## Proposal
Add `Asp.Versioning.Http` and `Asp.Versioning.Mvc.ApiExplorer` for URL-based API versioning.

## Approach
URL segment versioning (`/api/v1/events`, `/api/v2/events`).

## Implementation
1. Add versioning packages
2. Configure default version (1.0)
3. Add version groups to Swagger
4. Prefix all routes with `/api/v1/`
5. When v2 is needed, add versioned endpoint groups

**Priority:** 2 (API & Infrastructure Hardening)

See: docs/08-Technical-Feature-Requests.md" |};
    {| title := "TFR-007: Improve Health Checks";
       body := "## Problem
Current health checks cover PostgreSQL, Redis, and Keycloak (URI check). Missing:
- MassTransit connectivity
- No liveness/readiness distinction (important for Kubernetes)
- No startup probe
- No detailed health check response

## Proposal

### Add Health Check Endpoints
- `GET /health/live` -- Liveness: app is running (always 200 unless crashed)
- `GET /health/ready` -- Readiness: app can serve traffic (all dependencies up)
- `GET /health/startup` -- Startup: app has finished initialization

### Add Missing Checks
- MassTransit bus health
- Outbox/inbox backlog check (alert if unprocessed messages > threshold)
- Quartz scheduler health

**Priority:** 2 (API & Infrastructure Hardening)  
**Note:** After TFR-001, remove Keycloak health check

See: docs/08-Technical-Feature-Requests.md" |};
    {| title := "TFR-008: Add Response Compression & CORS";
       body := "## Problem
- No response compression -- JSON responses sent uncompressed
- No CORS configuration visible -- browsers may be blocked from calling the API

## Proposal

### Compression
Enable Brotli and Gzip compression for HTTPS responses.

### CORS
Configure CORS policy to allow frontend requests:
- Allow specific origins (e.g., `http://localhost:3000`)
- Allow any header and method
- Allow credentials

**Priority:** 2 (API & Infrastructure Hardening)

See: docs/08-Technical-Feature-Requests.md" |};
    {| title := "TFR-009: Persist Quartz Scheduler State";
       body := "## Problem
Quartz scheduler uses in-memory job storage with a random GUID instance ID. If the application restarts:
- All scheduled jobs are lost
- Outbox/inbox processing timers reset
- No visibility into job execution history
- No cluster support (multiple instances would duplicate jobs)

## Proposal
Switch Quartz to persistent `AdoJobStore` backed by PostgreSQL.

## Benefits
- Jobs survive application restarts
- Job execution history available for debugging
- Cluster mode support (only one instance processes each job)
- Dashboard integration possible (Quartz.NET monitoring)

## Implementation
1. Add `Quartz.Serialization.Json` package
2. Configure `AdoJobStore` with PostgreSQL provider
3. Create Quartz schema tables (built-in migration script)
4. Use clustered mode with `InstanceId = " ++ dq ++ "AUTO" ++ dq ++ "`

**Priority:** 3 (Observability & Performance)

See: docs/08-Technical-Feature-Requests.md" |};
    {| title := "TFR-010: Multi-Level Caching (L1 + L2)";
       body := "## Problem
Current caching is single-level (Redis or memory fallback). For frequently read data (event details, categories, permissions), every cache miss goes to Redis over the network.

## Proposal
Add in-memory L1 cache in front of Redis L2 cache.

## Pattern
```
Request -> L1 (IMemoryCache, in-process, ~1ms)
       -> L2 (Redis, network, ~5ms)
       -> Database (~20ms)
```

## What to Cache at L1
- User permissions (queried on every request via `CustomClaimsTransformation`)
- Category list (rarely changes)
- Event details for published events (immutable after publish)

## Cache Invalidation
Use Redis pub/sub to invalidate L1 across multiple instances when data changes.

## Implementation
Create `HybridCacheService` wrapping `IMemoryCache` + `IDistributedCache` with configurable L1 TTL.

**Priority:** 3 (Observability & Performance)

See: docs/08-Technical-Feature-Requests.md" |};
    {| title := "TFR-011: Structured Configuration Validation";
       body := "## Problem
Configuration is loaded from multiple JSON files per module (`modules.users.json`, `modules.events.json`, etc.) with no validation. Missing or malformed config values fail at runtime, not startup.

## Proposal
Add `IValidateOptions<T>` implementations for all configuration sections.

## Validate at Startup
- Database connection string is not empty and is valid
- Redis connection string format
- JWT signing key present and minimum length
- Quartz cron expressions valid
- Module-specific settings complete

## Implementation
Use `OptionsBuilder<T>.ValidateOnStart()` pattern so the app fails fast with a clear error message.

**Priority:** 3 (Observability & Performance)

See: docs/08-Technical-Feature-Requests.md" |};
    {| title := "TFR-012: Enhance OpenAPI Documentation";
       body := "## Problem
Swagger is minimal -- single version, no security definitions, no request/response examples, no error schema documentation. Endpoints show up but aren't documented enough for a consumer to use confidently.

## Proposal

1. **Add security scheme** -- Document Bearer token authentication in Swagger UI
2. **Add operation summaries** -- Brief descriptions on each endpoint
3. **Add response examples** -- Sample request/response bodies
4. **Add error responses** -- Document 400, 401, 403, 404, 409 responses per endpoint
5. **Group by module** -- Use tags matching module names
6. **Add Scalar or ReDoc** -- Modern alternative to Swagger UI (better DX)

## Implementation
Use `WithOpenApi()` extension on endpoints or XML doc comments with `Swashbuckle.AspNetCore.Annotations`.

**Priority:** 3 (Observability & Performance)

See: docs/08-Technical-Feature-Requests.md" |}
  ].

(** [os.environ.get(key)] on the process environment. *)
Fixpoint dict_get {V : Type} (d : dict V) (key : string) : option V :=
  match d with
  | [] => None
  | (k, v) :: rest => if k =? key then Some v else dict_get rest key
  end.

(** The loop [for request in requests: if create_issue(...): success += 1],
    which [main] runs once per catalog; it returns the final count. *)
Fixpoint count_created (requests : list request_dict) (token : string)
    (success : nat) : M nat :=
  match requests with
  | [] => ret success
  | request :: rest =>
      created <- create_issue (title request) (body request) ["enhancement"] token ;;
      count_created rest token (if created then success + 1 else success)
  end.

(** The branch of [main] taken when [not token] holds. *)
Definition abort_without_token : M unit :=
  print "❌ Error: GITHUB_TOKEN environment variable not set" ;;
  print "   Please set it with: export GITHUB_TOKEN='your_token_here'" ;;
  sys_exit 1%Z.

(** The part of [main] after the token check. *)
Definition create_all (domain_requests technical_requests : list request_dict)
    (token : string) : M unit :=
  print ("Creating GitHub issues for " ++ REPO_OWNER ++ "/" ++ REPO_NAME ++ "...") ;;
  print "" ;;
  print "📋 Creating domain feature requests (FR-001 to FR-013)..." ;;
  domain_success <- count_created domain_requests token 0 ;;
  print "" ;;
  print "🔧 Creating technical feature requests (TFR-001 to TFR-012)..." ;;
  technical_success <- count_created technical_requests token 0 ;;
  print "" ;;
  print (str_repeat "=" 70) ;;
  print ("✅ Successfully created " ++ str_of_nat (domain_success + technical_success)
           ++ " out of "
           ++ str_of_nat (length domain_requests + length technical_requests)
           ++ " issues") ;;
  print ("   - Domain feature requests: " ++ str_of_nat domain_success
           ++ "/" ++ str_of_nat (length domain_requests)) ;;
  print ("   - Technical feature requests: " ++ str_of_nat technical_success
           ++ "/" ++ str_of_nat (length technical_requests)) ;;
  print (str_repeat "=" 70).

(** [main()] over a pair of catalogs.  [not token] holds when the variable
    is unset ([None]) and when it is the empty string. *)
Definition main_with (domain_requests technical_requests : list request_dict)
    (environ : dict string) : M unit :=
  match dict_get environ "GITHUB_TOKEN" with
  | None => abort_without_token
  | Some token =>
      if token =? "" then abort_without_token
      else create_all domain_requests technical_requests token
  end.

(** [main()] of the script, over its two literal catalogs. *)
Definition main (environ : dict string) : M unit :=
  main_with get_domain_feature_requests get_technical_feature_requests environ.

(** The exit status of the Python process that ran [main()] under
    [if __name__ == "__main__"]: 0 when [main] returns, the code of
    [sys.exit], and 1 (after a traceback) for any other uncaught
    exception. *)
Definition exit_status (o : outcome unit) : Z :=
  match o with
  | Returns _ => 0%Z
  | Raises (SystemExit code) => code
  | Raises _ => 1%Z
  end.

(** A run of the script starts with an empty trace. *)
Definition run (environ : dict string) (net : network) : outcome unit * trace :=
  main environ net [].

(** ** What a run is expected to leave in the trace *)

(** The request [create_issue] sends for one catalog entry; [main] passes
    the labels [["enhancement"]] for every entry. *)
Definition request_for (token : string) (title body : string)
    (labels : list string) : Request :=
  mkRequest POST GITHUB_API_URL
    [ ("title", JString title); ("body", JString body); ("labels", JArray labels) ]
    [ ("Authorization", "Bearer " ++ token);
      ("Accept", "application/vnd.github+json");
      ("X-GitHub-Api-Version", "2022-11-28") ].

Definition entry_request (token : string) (request : request_dict) : Request :=
  request_for token (title request) (body request) ["enhancement"].

Definition is_2xx (response : Response) : bool :=
  (200 <=? status_code response)%Z && (status_code response <? 300)%Z.

Definition is_4xx_5xx (response : Response) : bool :=
  (400 <=? status_code response)%Z && (status_code response <? 600)%Z.

(** Whether [create_issue] reports the response as a created issue. *)
Definition accepted (response : Response) : bool :=
  match http_error_msg response with
  | Some _ => false
  | None => true
  end.

(** The lines [create_issue] prints about a response. *)
Definition marker (title : string) (response : Response) : list string :=
  match http_error_msg response with
  | Some e =>
      [ "❌ Failed to create " ++ title ++ ": " ++ e;
        "   Response: " ++ text response ]
  | None => [ "✅ Created: " ++ title ]
  end.

Definition responds (rp : reply) : bool :=
  match rp with
  | Responds _ => true
  | Fails _ _ => false
  end.

Definition reply_accepted (rp : reply) : bool :=
  match rp with
  | Responds r => accepted r
  | Fails _ _ => false
  end.

Definition reply_2xx (rp : reply) : bool :=
  match rp with
  | Responds r => is_2xx r
  | Fails _ _ => false
  end.

Definition reply_marker (title : string) (rp : reply) : list string :=
  match rp with
  | Responds r => marker title r
  | Fails _ _ => []
  end.

(** The calls [start], ..., [start + n - 1] all receive a response. *)
Definition all_respond (net : network) (start n : nat) : bool :=
  forallb (fun i => responds (net i)) (seq start n).

(** How many of the calls [start], ..., [start + n - 1] satisfy [p]. *)
Definition count_replies (p : reply -> bool) (net : network) (start n : nat) : nat :=
  length (filter (fun i => p (net i)) (seq start n)).

(** The markers of a batch whose first call has index [start]. *)
Fixpoint batch_markers (requests : list request_dict) (net : network)
    (start : nat) : list string :=
  match requests with
  | [] => []
  | request :: rest =>
      (reply_marker (title request) (net start)
         ++ batch_markers rest net (S start))%list
  end.

(** The events of a batch whose first call has index [start]. *)
Fixpoint batch_events (token : string) (requests : list request_dict)
    (net : network) (start : nat) : trace :=
  match requests with
  | [] => []
  | request :: rest =>
      (Posted (entry_request token request)
         :: map Printed (reply_marker (title request) (net start))
         ++ batch_events token rest net (S start))%list
  end.

Definition separator : string := str_repeat "=" 70.

(** The five lines [main] prints after the second batch. *)
Definition summary (domain_success domain_total technical_success
    technical_total : nat) : list string :=
  [ separator;
    "✅ Successfully created " ++ str_of_nat (domain_success + technical_success)
      ++ " out of " ++ str_of_nat (domain_total + technical_total) ++ " issues";
    "   - Domain feature requests: " ++ str_of_nat domain_success
      ++ "/" ++ str_of_nat domain_total;
    "   - Technical feature requests: " ++ str_of_nat technical_success
      ++ "/" ++ str_of_nat technical_total;
    separator ].

Definition diagnostic : list string :=
  [ "❌ Error: GITHUB_TOKEN environment variable not set";
    "   Please set it with: export GITHUB_TOKEN='your_token_here'" ].


(** The call is answered with a client or server error status, the
    answers [create_issue] reports as failures. *)
Definition reply_http_error (rp : reply) : bool :=
  match rp with
  | Responds r => is_4xx_5xx r
  | Fails _ _ => false
  end.

(** ** Sample inputs *)

Definition created_201 : Response :=
  mkResponse 201 "Created" GITHUB_API_URL "{}".

Definition unprocessable_422 : Response :=
  mkResponse 422 "Unprocessable Entity" GITHUB_API_URL "Validation Failed".

Definition not_modified_304 : Response :=
  mkResponse 304 "Not Modified" GITHUB_API_URL "".

(** Every call is answered with 201. *)
Definition net_all_created : network := fun _ => Responds created_201.

(** Calls with an odd index are answered with 422, the others with 201. *)
Definition net_alternating : network :=
  fun i => if Nat.even i then Responds created_201 else Responds unprocessable_422.

(** The first call is refused at the transport level. *)
Definition net_refused : network :=
  fun i => if (i =? 0)%nat then Fails ConnectionError "Connection refused"
           else Responds created_201.

(** The fourth call (index 3) times out. *)
Definition net_timeout_at_3 : network :=
  fun i => if (i =? 3)%nat then Fails Timeout "Read timed out"
           else Responds created_201.

(** The sixth call (index 5) is answered with 304, the others with 201. *)
Definition net_one_304 : network :=
  fun i => if (i =? 5)%nat then Responds not_modified_304
           else Responds created_201.

Definition environ_with_token : dict string :=
  [ ("HOME", "/root"); ("GITHUB_TOKEN", "ghp_example") ].

Definition environ_without_token : dict string :=
  [ ("HOME", "/root") ].

Definition environ_empty_token : dict string :=
  [ ("HOME", "/root"); ("GITHUB_TOKEN", "") ].

(** From here on [++] is list concatenation. *)
Open Scope list_scope.

(** The lines [main] prints before the first batch and between the two. *)
Definition opening : list string :=
  [ ("Creating GitHub issues for " ++ REPO_OWNER ++ "/" ++ REPO_NAME ++ "...")%string;
    "";
    "📋 Creating domain feature requests (FR-001 to FR-013)..." ].

Definition interlude : list string :=
  [ ""; "🔧 Creating technical feature requests (TFR-001 to TFR-012)..." ].

(** The trace of a run in which every call is answered. *)
Definition answered_trace (domain_requests technical_requests : list request_dict)
    (token : string) (net : network) : trace :=
  map Printed opening
  ++ batch_events token domain_requests net 0
  ++ map Printed interlude
  ++ batch_events token technical_requests net (length domain_requests)
  ++ map Printed
       ("" :: summary
                (count_replies reply_accepted net 0 (length domain_requests))
                (length domain_requests)
                (count_replies reply_accepted net (length domain_requests)
                   (length technical_requests))
                (length technical_requests)).

(** [not token] of the script, on the value [os.environ.get] returned. *)
Definition token_missing (environ : dict string) : bool :=
  match dict_get environ "GITHUB_TOKEN" with
  | None => true
  | Some token => (token =? "")%string
  end.

(** The events of a run in which every call is answered, when the first
    call of the run has index [start] (calls made before the run count). *)
Definition run_events (domain_requests technical_requests : list request_dict)
    (token : string) (net : network) (start : nat) : trace :=
  map Printed opening
  ++ batch_events token domain_requests net start
  ++ map Printed interlude
  ++ batch_events token technical_requests net (start + length domain_requests)
  ++ map Printed
       ("" :: summary
                (count_replies reply_accepted net start (length domain_requests))
                (length domain_requests)
                (count_replies reply_accepted net (start + length domain_requests)
                   (length technical_requests))
                (length technical_requests)).

(** The output of a run whose call [i] fails at the transport level: the
    markers of the entries answered before it, and nothing after. *)
Definition interrupted_output (domain_requests technical_requests : list request_dict)
    (net : network) (i : nat) : list string :=
  if (i <? length domain_requests)%nat then
    opening ++ batch_markers (firstn i domain_requests) net 0
  else
    opening ++ batch_markers domain_requests net 0 ++ interlude
    ++ batch_markers (firstn (i - length domain_requests) technical_requests) net
         (length domain_requests).

(** The two kinds of first line [create_issue] prints about an entry. *)
Definition is_success_marker (line : string) : bool :=
  String.prefix "✅ Created:" line.

Definition is_failure_marker (line : string) : bool :=
  String.prefix "❌ Failed to create" line.

(** No string occurs twice in the list. *)
Fixpoint distinctb (l : list string) : bool :=
  match l with
  | [] => true
  | x :: rest => negb (existsb (String.eqb x) rest) && distinctb rest
  end.

(** Whether a line starts like one of the five lines of the summary. *)
Definition is_summary_line (line : string) : bool :=
  String.prefix "=" line
  || String.prefix "✅ Successfully created" line
  || String.prefix "   -" line.

(** The first of the calls [start], ..., [start + n - 1] that is not
    answered, if there is one. *)
Fixpoint first_unanswered (net : network) (start n : nat) : option nat :=
  match n with
  | O => None
  | S n' =>
      if responds (net start) then first_unanswered net (S start) n'
      else Some start
  end.

(** The console output of a run with a credential, from the catalogs and the
    replies alone: the whole report when every call is answered, the report
    cut at the first unanswered call otherwise. *)
Definition run_output (domain_requests technical_requests : list request_dict)
    (net : network) : list string :=
  match first_unanswered net 0
          (length domain_requests + length technical_requests) with
  | None =>
      opening
      ++ batch_markers domain_requests net 0
      ++ interlude
      ++ batch_markers technical_requests net (length domain_requests)
      ++ [""%string]
      ++ summary
           (count_replies reply_accepted net 0 (length domain_requests))
           (length domain_requests)
           (count_replies reply_accepted net (length domain_requests)
              (length technical_requests))
           (length technical_requests)
  | Some i => interrupted_output domain_requests technical_requests net i
  end.

(** ** Traces *)

Lemma posts_app (t1 t2 : trace) : posts (t1 ++ t2) = (posts t1 ++ posts t2)%list.
Proof. apply flat_map_app. Qed.

Lemma stdout_app (t1 t2 : trace) : stdout (t1 ++ t2) = (stdout t1 ++ stdout t2)%list.
Proof. apply flat_map_app. Qed.

Lemma posts_printed (lines : list string) : posts (map Printed lines) = [].
Proof. induction lines as [|l ls IH]; [reflexivity | exact IH]. Qed.

Lemma stdout_printed (lines : list string) : stdout (map Printed lines) = lines.
Proof.
  induction lines as [|l ls IH]; [reflexivity |].
  cbn. f_equal. exact IH.
Qed.

Lemma posts_batch_events token requests net start :
  posts (batch_events token requests net start) = map (entry_request token) requests.
Proof.
  revert start. induction requests as [|rq rest IH]; intro start; [reflexivity |].
  cbn [batch_events map].
  change (posts (Posted (entry_request token rq) :: ?l))
    with (entry_request token rq :: posts l).
  rewrite posts_app, posts_printed, IH. reflexivity.
Qed.

Lemma stdout_batch_events token requests net start :
  stdout (batch_events token requests net start) = batch_markers requests net start.
Proof.
  revert start. induction requests as [|rq rest IH]; intro start; [reflexivity |].
  cbn [batch_events batch_markers].
  change (stdout (Posted (entry_request token rq) :: ?l)) with (stdout l).
  rewrite stdout_app, stdout_printed, IH. reflexivity.
Qed.

Lemma all_respond_S net start n :
  all_respond net start (S n) = responds (net start) && all_respond net (S start) n.
Proof. reflexivity. Qed.

Lemma count_replies_S p net start n :
  count_replies p net start (S n)
  = (if p (net start) then 1 else 0) + count_replies p net (S start) n.
Proof.
  unfold count_replies. cbn [seq filter].
  destruct (p (net start)); reflexivity.
Qed.

Lemma count_replies_le p net start n : count_replies p net start n <= n.
Proof.
  revert start. induction n as [|n IH]; intro start; [apply Nat.le_refl |].
  rewrite count_replies_S. specialize (IH (S start)).
  destruct (p (net start)); lia.
Qed.

Lemma count_replies_add p net start n m :
  count_replies p net start (n + m)
  = count_replies p net start n + count_replies p net (start + n) m.
Proof.
  unfold count_replies. rewrite seq_app, filter_app, length_app. reflexivity.
Qed.

Lemma all_respond_add net start n m :
  all_respond net start (n + m)
  = all_respond net start n && all_respond net (start + n) m.
Proof.
  unfold all_respond. rewrite seq_app, forallb_app. reflexivity.
Qed.

(** ** One call *)

Lemma accepted_status (r : Response) : accepted r = negb (is_4xx_5xx r).
Proof.
  unfold accepted, http_error_msg, is_4xx_5xx.
  destruct (400 <=? status_code r)%Z eqn:E4;
    destruct (status_code r <? 500)%Z eqn:E5;
    destruct (500 <=? status_code r)%Z eqn:E6;
    destruct (status_code r <? 600)%Z eqn:E7; cbn; try reflexivity; lia.
Qed.

Lemma create_issue_responds title body labels token net t r :
  net (length (posts t)) = Responds r ->
  create_issue title body labels token net t
  = (Returns (accepted r),
     (t ++ Posted (request_for token title body labels)
        :: map Printed (marker title r))%list).
Proof.
  intro H.
  unfold create_issue, try_except_HTTPError, bind, requests_post.
  rewrite H. unfold raise_for_status, accepted, marker.
  destruct (http_error_msg r) as [e|]; unfold raise, ret, print, request_for;
    cbn [map]; repeat rewrite <- app_assoc; reflexivity.
Qed.

Lemma create_issue_fails title body labels token net t kind msg :
  net (length (posts t)) = Fails kind msg ->
  create_issue title body labels token net t
  = (Raises (TransportError kind msg),
     (t ++ [Posted (request_for token title body labels)])%list).
Proof.
  intro H.
  unfold create_issue, try_except_HTTPError, bind, requests_post.
  rewrite H. reflexivity.
Qed.

(** ** One batch *)

Lemma bind_returns {A B : Type} (m : M A) (k : A -> M B) net t a t' :
  m net t = (Returns a, t') -> bind m k net t = k a net t'.
Proof. intro H. unfold bind. rewrite H. reflexivity. Qed.

Lemma bind_raises {A B : Type} (m : M A) (k : A -> M B) net t e t' :
  m net t = (Raises e, t') -> bind m k net t = (Raises e, t').
Proof. intro H. unfold bind. rewrite H. reflexivity. Qed.

Lemma bind_print {B : Type} (line : string) (k : unit -> M B) net t :
  bind (print line) k net t = k tt net (t ++ [Printed line]).
Proof. reflexivity. Qed.

Lemma posts_after_call t rq lines :
  length (posts (t ++ Posted rq :: map Printed lines)) = S (length (posts t)).
Proof.
  rewrite posts_app.
  change (posts (Posted rq :: map Printed lines)) with (rq :: posts (map Printed lines)).
  rewrite posts_printed, length_app. cbn. lia.
Qed.

Lemma responds_inv rp : responds rp = true -> exists r, rp = Responds r.
Proof. destruct rp as [r|k m]; [exists r; reflexivity | discriminate]. Qed.

(** When every call of the batch is answered, the loop returns the number
    of accepted responses and leaves the events of the whole batch. *)
Lemma count_created_responds requests : forall token success net t,
  all_respond net (length (posts t)) (length requests) = true ->
  count_created requests token success net t
  = (Returns (success
              + count_replies reply_accepted net (length (posts t)) (length requests)),
     t ++ batch_events token requests net (length (posts t))).
Proof.
  induction requests as [|rq rest IH]; intros token success net t H.
  - cbn. rewrite Nat.add_0_r, app_nil_r. reflexivity.
  - cbn [length] in H. rewrite all_respond_S in H.
    apply andb_true_iff in H. destruct H as [H0 Hrest].
    destruct (responds_inv _ H0) as [r Hr].
    cbn [count_created].
    rewrite (bind_returns _ _ _ _ _ _
               (create_issue_responds (title rq) (body rq) ["enhancement"] token net t r Hr)).
    rewrite IH; rewrite posts_after_call; [| exact Hrest].
    cbn [length batch_events]. rewrite count_replies_S, Hr.
    cbn [reply_accepted reply_marker]. unfold entry_request.
    rewrite <- app_assoc. cbn [app].
    f_equal. f_equal. destruct (accepted r); lia.
Qed.

(** A transport failure at the call of entry [i] ends the loop there: the
    exception leaves the loop, and the entries after [i] are not sent. *)
Lemma count_created_fails requests : forall token success net t i kind msg,
  i < length requests ->
  all_respond net (length (posts t)) i = true ->
  net (length (posts t) + i) = Fails kind msg ->
  count_created requests token success net t
  = (Raises (TransportError kind msg),
     t ++ batch_events token (firstn (S i) requests) net (length (posts t))).
Proof.
  induction requests as [|rq rest IH]; intros token success net t i kind msg Hi Hall Hf.
  - cbn in Hi. lia.
  - cbn [count_created]. destruct i as [|i].
    + rewrite Nat.add_0_r in Hf.
      rewrite (bind_raises _ _ _ _ _ _
                 (create_issue_fails (title rq) (body rq) ["enhancement"] token net t kind msg Hf)).
      cbn [firstn batch_events]. rewrite Hf. reflexivity.
    + rewrite all_respond_S in Hall.
      apply andb_true_iff in Hall. destruct Hall as [H0 Hrest].
      destruct (responds_inv _ H0) as [r Hr].
      rewrite (bind_returns _ _ _ _ _ _
                 (create_issue_responds (title rq) (body rq) ["enhancement"] token net t r Hr)).
      cbn [length] in Hi.
      rewrite (IH _ _ _ _ i kind msg); rewrite ?posts_after_call;
        [ | lia | exact Hrest | rewrite <- Hf; f_equal; lia ].
      change (firstn (S (S i)) (rq :: rest)) with (rq :: firstn (S i) rest).
      cbn [batch_events]. rewrite Hr. cbn [reply_marker]. unfold entry_request.
      rewrite <- app_assoc. reflexivity.
Qed.

(** Among calls that are not all answered there is a first failing one. *)
Lemma first_failure net : forall n start,
  all_respond net start n = false ->
  exists i kind msg,
    i < n /\ all_respond net start i = true /\ net (start + i) = Fails kind msg.
Proof.
  induction n as [|n IH]; intros start H; [discriminate |].
  rewrite all_respond_S in H.
  destruct (net start) as [r|kind msg] eqn:E.
  - cbn [responds andb] in H. destruct (IH _ H) as (i & kind & msg & Hi & Hall & Hf).
    exists (S i), kind, msg. repeat split; [lia | |].
    + rewrite all_respond_S, E. exact Hall.
    + rewrite <- Hf. f_equal. lia.
  - exists 0, kind, msg. repeat split; [lia |].
    rewrite Nat.add_0_r. exact E.
Qed.

(** ** The whole run *)

Lemma create_all_responds domain_requests technical_requests token net :
  all_respond net 0 (length domain_requests + length technical_requests) = true ->
  create_all domain_requests technical_requests token net []
  = (Returns tt, answered_trace domain_requests technical_requests token net).
Proof.
  intro H. rewrite all_respond_add in H.
  apply andb_true_iff in H. destruct H as [Hd Ht]. cbn [Nat.add] in Ht.
  unfold create_all. rewrite !bind_print.
  match goal with
  | |- bind _ _ net ?T = _ => change T with (map Printed opening)
  end.
  assert (E0 : length (posts (map Printed opening)) = 0)
    by (rewrite posts_printed; reflexivity).
  rewrite <- E0 in Hd.
  rewrite (bind_returns _ _ _ _ _ _
             (count_created_responds domain_requests token 0 net _ Hd)).
  rewrite E0, !bind_print.
  match goal with
  | |- bind _ _ net ?T = _ =>
      assert (E1 : length (posts T) = length domain_requests)
  end.
  { rewrite !posts_app, posts_printed, posts_batch_events.
    rewrite !length_app, length_map. cbn. lia. }
  rewrite <- E1 in Ht.
  rewrite (bind_returns _ _ _ _ _ _
             (count_created_responds technical_requests token 0 net _ Ht)).
  rewrite E1, !bind_print. unfold print.
  unfold answered_trace, summary, separator, interlude.
  cbn [map Nat.add]. rewrite <- !app_assoc. reflexivity.
Qed.

(** A transport failure at call [i] of the run: the exception leaves
    [create_all], and the calls sent are those of the first [i + 1] entries
    of the two catalogs. *)
Lemma create_all_fails domain_requests technical_requests token net i kind msg :
  i < length domain_requests + length technical_requests ->
  all_respond net 0 i = true ->
  net i = Fails kind msg ->
  exists t,
    create_all domain_requests technical_requests token net []
    = (Raises (TransportError kind msg), t)
    /\ posts t
       = map (entry_request token)
           (firstn (S i) (domain_requests ++ technical_requests)).
Proof.
  intros Hi Hall Hf.
  assert (E0 : length (posts (map Printed opening)) = 0)
    by (rewrite posts_printed; reflexivity).
  unfold create_all. rewrite !bind_print.
  match goal with
  | |- context [bind _ _ net ?T] => change T with (map Printed opening)
  end.
  destruct (Nat.lt_ge_cases i (length domain_requests)) as [Hlt|Hge].
  - rewrite <- E0 in Hall. rewrite <- (Nat.add_0_l i), <- E0 in Hf.
    eexists. split.
    + apply bind_raises.
      exact (count_created_fails domain_requests token 0 net _ i kind msg Hlt Hall Hf).
    + rewrite posts_app, posts_printed, posts_batch_events. cbn [app].
      rewrite firstn_app.
      replace (S i - length domain_requests) with 0 by lia.
      cbn [firstn]. rewrite app_nil_r. reflexivity.
  - remember (i - length domain_requests) as j eqn:Ej.
    assert (Ei : i = length domain_requests + j) by lia.
    rewrite Ei in Hall, Hf.
    rewrite all_respond_add in Hall.
    apply andb_true_iff in Hall. destruct Hall as [Hd Ht]. cbn [Nat.add] in Ht.
    rewrite <- E0 in Hd.
    rewrite (bind_returns _ _ _ _ _ _
               (count_created_responds domain_requests token 0 net _ Hd)).
    rewrite E0, !bind_print.
    match goal with
    | |- context [bind _ _ net ?T] =>
        assert (E1 : length (posts T) = length domain_requests)
    end.
    { rewrite !posts_app, posts_printed, posts_batch_events.
      rewrite !length_app, length_map. cbn. lia. }
    rewrite <- E1 in Ht, Hf.
    eexists. split.
    + apply bind_raises.
      refine (count_created_fails technical_requests token 0 net _ j kind msg _ Ht Hf).
      lia.
    + rewrite !posts_app, !posts_batch_events, posts_printed. cbn [app posts flat_map].
      rewrite firstn_app.
      rewrite (firstn_all2 (n := S i) domain_requests) by lia.
      replace (S i - length domain_requests) with (S j) by lia.
      rewrite map_app, !app_nil_r. reflexivity.
Qed.

Lemma abort_without_token_runs net t :
  abort_without_token net t = (Raises (SystemExit 1), t ++ map Printed diagnostic).
Proof.
  unfold abort_without_token. rewrite !bind_print.
  unfold sys_exit, raise, diagnostic. cbn [map].
  rewrite <- app_assoc. reflexivity.
Qed.

Lemma main_with_token domain_requests technical_requests environ token :
  dict_get environ "GITHUB_TOKEN" = Some token ->
  token <> ""%string ->
  main_with domain_requests technical_requests environ
  = create_all domain_requests technical_requests token.
Proof.
  intros H Hne. unfold main_with. rewrite H.
  apply String.eqb_neq in Hne. rewrite Hne. reflexivity.
Qed.

Lemma main_with_missing domain_requests technical_requests environ :
  token_missing environ = true ->
  main_with domain_requests technical_requests environ = abort_without_token.
Proof.
  unfold token_missing, main_with.
  destruct (dict_get environ "GITHUB_TOKEN") as [token|]; [| reflexivity].
  intro H. rewrite H. reflexivity.
Qed.


Lemma count_replies_ext p q net start n :
  (forall i, start <= i < start + n -> p (net i) = q (net i)) ->
  count_replies p net start n = count_replies q net start n.
Proof.
  revert start. induction n as [|n IH]; intros start H; [reflexivity |].
  rewrite !count_replies_S, (H start) by lia.
  rewrite (IH (S start)); [reflexivity |].
  intros i Hi. apply H. lia.
Qed.

Lemma count_replies_negb p net start n :
  count_replies p net start n + count_replies (fun rp => negb (p rp)) net start n = n.
Proof.
  revert start. induction n as [|n IH]; intro start; [reflexivity |].
  rewrite !count_replies_S. specialize (IH (S start)).
  destruct (p (net start)); cbn [negb]; lia.
Qed.

(** ** The claims *)

(** C4. When the credential variable is absent from the environment, the
    run prints the two-line diagnostic and leaves through [sys.exit(1)]:
    the trace holds the diagnostic only, so no request was sent for any
    entry of either batch, and the exit status is 1. *)
Theorem missing_token_aborts domain_requests technical_requests environ net :
  dict_get environ "GITHUB_TOKEN" = None ->
  main_with domain_requests technical_requests environ net []
  = (Raises (SystemExit 1), map Printed diagnostic)
  /\ posts (snd (main_with domain_requests technical_requests environ net [])) = []
  /\ stdout (snd (main_with domain_requests technical_requests environ net []))
     = diagnostic
  /\ exit_status (fst (main_with domain_requests technical_requests environ net []))
     = 1%Z.
Proof.
  intro H.
  assert (E : main_with domain_requests technical_requests environ net []
              = (Raises (SystemExit 1), map Printed diagnostic)).
  { rewrite main_with_missing by (unfold token_missing; rewrite H; reflexivity).
    apply abort_without_token_runs. }
  rewrite E. repeat split.
Qed.

Lemma missing_token_aborts_witness :
  dict_get environ_without_token "GITHUB_TOKEN" = None
  /\ run environ_without_token net_all_created
     = (Raises (SystemExit 1), map Printed diagnostic)
  /\ posts (snd (run environ_without_token net_all_created)) = [].
Proof.
  split; [reflexivity |].
  destruct (missing_token_aborts get_domain_feature_requests
              get_technical_feature_requests environ_without_token
              net_all_created eq_refl) as (E & P & _).
  split; [exact E | exact P].
Defined.

(** C10. A credential variable that is set to the empty string is treated
    as an absent one: same diagnostic, same [sys.exit(1)], and no request
    sent. *)
Theorem empty_token_aborts domain_requests technical_requests environ net :
  dict_get environ "GITHUB_TOKEN" = Some ""%string ->
  main_with domain_requests technical_requests environ net []
  = main_with domain_requests technical_requests [] net []
  /\ main_with domain_requests technical_requests environ net []
     = (Raises (SystemExit 1), map Printed diagnostic)
  /\ posts (snd (main_with domain_requests technical_requests environ net [])) = []
  /\ exit_status (fst (main_with domain_requests technical_requests environ net []))
     = 1%Z.
Proof.
  intro H.
  assert (E : main_with domain_requests technical_requests environ net []
              = (Raises (SystemExit 1), map Printed diagnostic)).
  { rewrite main_with_missing by (unfold token_missing; rewrite H; reflexivity).
    apply abort_without_token_runs. }
  rewrite E. repeat split.
Qed.

Lemma empty_token_aborts_witness :
  dict_get environ_empty_token "GITHUB_TOKEN" = Some ""%string
  /\ run environ_empty_token net_all_created
     = (Raises (SystemExit 1), map Printed diagnostic)
  /\ posts (snd (run environ_empty_token net_all_created)) = [].
Proof.
  split; [reflexivity |].
  destruct (empty_token_aborts get_domain_feature_requests
              get_technical_feature_requests environ_empty_token
              net_all_created eq_refl) as (_ & E & P & _).
  split; [exact E | exact P].
Defined.

(** C8. Every call of [create_issue] sends exactly one request: a POST to
    the issues endpoint whose JSON payload holds the title, the body and the
    labels it was given, under these keys and no other, and whose headers
    are the bearer authorization built from the token, the Accept media
    type and the API version. *)
Theorem create_issue_request title body labels token net t :
  posts (snd (create_issue title body labels token net t))
  = posts t
    ++ [ {| req_method := POST;
            req_url := GITHUB_API_URL;
            req_json := [ ("title", JString title);
                          ("body", JString body);
                          ("labels", JArray labels) ];
            req_headers := [ ("Authorization", ("Bearer " ++ token)%string);
                             ("Accept", "application/vnd.github+json");
                             ("X-GitHub-Api-Version", "2022-11-28") ] |} ].
Proof.
  destruct (net (length (posts t))) as [r|kind msg] eqn:E.
  - rewrite (create_issue_responds _ _ _ _ _ _ _ E). cbn [snd].
    rewrite posts_app.
    change (posts (Posted ?rq :: ?l)) with (rq :: posts l).
    rewrite posts_printed. reflexivity.
  - rewrite (create_issue_fails _ _ _ _ _ _ _ _ E). cbn [snd].
    rewrite posts_app. reflexivity.
Qed.

(** C2, as the code has it.  A call that receives a response returns [True]
    exactly when the status lies outside 400..599 and [False] exactly when
    it lies inside: [raise_for_status] raises for client and server errors
    only.  Every 2xx status is therefore a success, and so is every status
    below 400 or from 600 on. *)
Theorem create_issue_classification title body labels token net t r :
  net (length (posts t)) = Responds r ->
  (fst (create_issue title body labels token net t) = Returns true
     <-> ~ (400 <= status_code r < 600)%Z)
  /\ (fst (create_issue title body labels token net t) = Returns false
        <-> (400 <= status_code r < 600)%Z)
  /\ ((200 <= status_code r < 300)%Z ->
      fst (create_issue title body labels token net t) = Returns true).
Proof.
  intro H. rewrite (create_issue_responds _ _ _ _ _ _ _ H). cbn [fst].
  rewrite accepted_status. unfold is_4xx_5xx.
  destruct (400 <=? status_code r)%Z eqn:E1;
    destruct (status_code r <? 600)%Z eqn:E2; cbn [andb negb];
    repeat split; intros; try reflexivity; try discriminate; try lia.
Qed.

Lemma create_issue_classification_witness :
  net_alternating (length (posts [])) = Responds created_201
  /\ fst (create_issue "FR-001: Notifications Module" "## Problem" ["enhancement"]
            "ghp_example" net_alternating []) = Returns true.
Proof.
  split; [reflexivity |].
  apply (create_issue_classification "FR-001: Notifications Module" "## Problem"
           ["enhancement"] "ghp_example" net_alternating [] created_201 eq_refl).
  cbn. lia.
Defined.

(** C2, as stated, fails: a response with status 304 is not a 2xx response,
    yet [create_issue] prints the success marker and returns [True]. *)
Lemma not_modified_counts_as_created :
  is_2xx not_modified_304 = false
  /\ create_issue "FR-001: Notifications Module" "## Problem" ["enhancement"]
       "ghp_example" (fun _ => Responds not_modified_304) []
     = (Returns true,
        [ Posted (request_for "ghp_example" "FR-001: Notifications Module"
                    "## Problem" ["enhancement"]);
          Printed "✅ Created: FR-001: Notifications Module" ]).
Proof. split; reflexivity. Qed.

(** C1, as the code has it.  A transport failure is not caught by
    [create_issue], whose handler names [HTTPError] only: when the call for
    entry [i] of the run fails at the transport level, the exception leaves
    [main], the calls made are those for the entries up to [i] and none
    after it, and the process ends with status 1. *)
Theorem transport_failure_propagates domain_requests technical_requests environ
    token net i kind msg :
  dict_get environ "GITHUB_TOKEN" = Some token ->
  token <> ""%string ->
  i < length domain_requests + length technical_requests ->
  all_respond net 0 i = true ->
  net i = Fails kind msg ->
  fst (main_with domain_requests technical_requests environ net [])
  = Raises (TransportError kind msg)
  /\ posts (snd (main_with domain_requests technical_requests environ net []))
     = map (entry_request token)
         (firstn (S i) (domain_requests ++ technical_requests))
  /\ exit_status (fst (main_with domain_requests technical_requests environ net []))
     = 1%Z.
Proof.
  intros Htok Hne Hi Hall Hf.
  rewrite (main_with_token _ _ _ _ Htok Hne).
  destruct (create_all_fails domain_requests technical_requests token net i kind msg
              Hi Hall Hf) as (t & E & P).
  rewrite E. cbn [fst snd exit_status]. repeat split. exact P.
Qed.

Lemma transport_failure_propagates_witness :
  fst (run environ_with_token net_timeout_at_3)
  = Raises (TransportError Timeout "Read timed out")
  /\ length (posts (snd (run environ_with_token net_timeout_at_3))) = 4
  /\ exit_status (fst (run environ_with_token net_timeout_at_3)) = 1%Z.
Proof.
  assert (Hne : "ghp_example"%string <> ""%string) by discriminate.
  assert (Hi : 3 < length get_domain_feature_requests
                   + length get_technical_feature_requests) by (cbn; lia).
  destruct (transport_failure_propagates get_domain_feature_requests
              get_technical_feature_requests environ_with_token "ghp_example"
              net_timeout_at_3 3 Timeout "Read timed out"
              eq_refl Hne Hi eq_refl eq_refl) as (E & P & X).
  split; [exact E |]. split; [| exact X].
  unfold run, main. rewrite P. reflexivity.
Defined.

(** C1, as stated, fails: with the token set and the first call refused at
    the transport level, the run ends with the exception after one call out
    of 25, and nothing is printed about the failure. *)
Lemma transport_failure_not_absorbed :
  fst (run environ_with_token net_refused)
  = Raises (TransportError ConnectionError "Connection refused")
  /\ length (posts (snd (run environ_with_token net_refused))) = 1
  /\ length (get_domain_feature_requests ++ get_technical_feature_requests) = 25
  /\ stdout (snd (run environ_with_token net_refused)) = opening.
Proof. repeat split. Qed.

(** C3, as the code has it.  The exit status is 1 when the credential
    variable is unset or empty, and also when some call of the run fails at
    the transport level, since that exception is not caught; it is 0 when
    the credential is present and every call is answered, whatever the
    statuses of the answers. *)
Theorem exit_status_characterised domain_requests technical_requests environ net :
  exit_status (fst (main_with domain_requests technical_requests environ net []))
  = if token_missing environ then 1%Z
    else if all_respond net 0 (length domain_requests + length technical_requests)
         then 0%Z else 1%Z.
Proof.
  destruct (token_missing environ) eqn:Hm.
  - rewrite (main_with_missing _ _ _ Hm), abort_without_token_runs. reflexivity.
  - unfold token_missing in Hm.
    destruct (dict_get environ "GITHUB_TOKEN") as [token|] eqn:Htok; [| discriminate].
    apply String.eqb_neq in Hm.
    rewrite (main_with_token _ _ _ _ Htok Hm).
    destruct (all_respond net 0 (length domain_requests + length technical_requests))
      eqn:Hall.
    + rewrite (create_all_responds _ _ _ _ Hall). reflexivity.
    + destruct (first_failure _ _ _ Hall) as (i & kind & msg & Hi & Hpre & Hf).
      destruct (create_all_fails domain_requests technical_requests token net i
                  kind msg Hi Hpre Hf) as (t & E & _).
      rewrite E. reflexivity.
Qed.

(** C3, as stated, fails: the credential is present and non-empty, the first
    call is refused at the transport level, and the exit status is 1. *)
Lemma exit_status_one_with_credential :
  dict_get environ_with_token "GITHUB_TOKEN" = Some "ghp_example"%string
  /\ token_missing environ_with_token = false
  /\ exit_status (fst (run environ_with_token net_refused)) = 1%Z.
Proof. repeat split. Qed.

(** C5, as the code has it.  With the credential present: when every call
    is answered, whatever the statuses, [main] returns and the requests it
    sent are those of the entries of the domain catalog followed by those
    of the technical catalog, one each and in catalog order, so an entry
    rejected with an error status keeps no later entry and no later batch
    from being sent.  A call that fails at the transport level does: the
    requests sent are those of the entries up to that one, and none after
    it. *)
Theorem entries_submitted_until_transport_failure domain_requests
    technical_requests environ token net :
  dict_get environ "GITHUB_TOKEN" = Some token ->
  token <> ""%string ->
  (all_respond net 0 (length domain_requests + length technical_requests) = true ->
   fst (main_with domain_requests technical_requests environ net []) = Returns tt
   /\ posts (snd (main_with domain_requests technical_requests environ net []))
      = map (entry_request token) (domain_requests ++ technical_requests))
  /\ (forall i kind msg,
        i < length domain_requests + length technical_requests ->
        all_respond net 0 i = true ->
        net i = Fails kind msg ->
        fst (main_with domain_requests technical_requests environ net [])
        = Raises (TransportError kind msg)
        /\ posts (snd (main_with domain_requests technical_requests environ net []))
           = map (entry_request token)
               (firstn (S i) (domain_requests ++ technical_requests))).
Proof.
  intros Htok Hne. rewrite (main_with_token _ _ _ _ Htok Hne). split.
  - intro Hall. rewrite (create_all_responds _ _ _ _ Hall).
    cbn [fst snd]. split; [reflexivity |].
    unfold answered_trace.
    rewrite !posts_app, !posts_batch_events, !posts_printed, map_app.
    cbn [app]. rewrite app_nil_r. reflexivity.
  - intros i kind msg Hi Hpre Hf.
    destruct (create_all_fails domain_requests technical_requests token net i
                kind msg Hi Hpre Hf) as (t & E & P).
    rewrite E. cbn [fst snd]. split; [reflexivity | exact P].
Qed.

Lemma entries_submitted_until_transport_failure_witness :
  reply_accepted (net_alternating 1) = false
  /\ fst (run environ_with_token net_alternating) = Returns tt
  /\ posts (snd (run environ_with_token net_alternating))
     = map (entry_request "ghp_example")
         (get_domain_feature_requests ++ get_technical_feature_requests).
Proof.
  split; [reflexivity |].
  assert (Hne : "ghp_example"%string <> ""%string) by discriminate.
  exact (proj1 (entries_submitted_until_transport_failure
                  get_domain_feature_requests get_technical_feature_requests
                  environ_with_token "ghp_example" net_alternating eq_refl Hne)
           eq_refl).
Defined.

(** C5, as stated, fails: the fourth call of the run times out, and the
    requests sent are those of the first four domain entries; the other
    nine domain entries and the whole technical batch are never sent. *)
Lemma timeout_blocks_later_entries :
  net_timeout_at_3 3 = Fails Timeout "Read timed out"
  /\ posts (snd (run environ_with_token net_timeout_at_3))
     = map (entry_request "ghp_example") (firstn 4 get_domain_feature_requests)
  /\ length (posts (snd (run environ_with_token net_timeout_at_3))) = 4
  /\ length get_domain_feature_requests = 13
  /\ length get_technical_feature_requests = 12.
Proof. repeat split. Qed.

(** C6, as the code has it.  Take a run with the credential present in
    which every call is answered, and let [k] be the number of answers with
    a status in 400..599 among the [N] entries of the two catalogs.  Then
    [N] requests are sent, the two per-batch counts add up to [N - k], and
    the summary that ends the output reports [N - k] created out of [N]
    followed by the two per-batch counts.  An answer whose status is not
    2xx but lies outside 400..599 is counted as created. *)
Theorem summary_totals domain_requests technical_requests environ token net k :
  dict_get environ "GITHUB_TOKEN" = Some token ->
  token <> ""%string ->
  all_respond net 0 (length domain_requests + length technical_requests) = true ->
  count_replies reply_http_error net 0
    (length domain_requests + length technical_requests) = k ->
  let domain_success :=
    count_replies reply_accepted net 0 (length domain_requests) in
  let technical_success :=
    count_replies reply_accepted net (length domain_requests)
      (length technical_requests) in
  domain_success + technical_success
  = length domain_requests + length technical_requests - k
  /\ domain_success <= length domain_requests
  /\ technical_success <= length technical_requests
  /\ length (posts (snd (main_with domain_requests technical_requests environ net [])))
     = length domain_requests + length technical_requests
  /\ exists before,
       stdout (snd (main_with domain_requests technical_requests environ net []))
       = before
         ++ [ separator;
              ("✅ Successfully created "
                 ++ str_of_nat (length domain_requests + length technical_requests - k)
                 ++ " out of "
                 ++ str_of_nat (length domain_requests + length technical_requests)
                 ++ " issues")%string;
              ("   - Domain feature requests: " ++ str_of_nat domain_success
                 ++ "/" ++ str_of_nat (length domain_requests))%string;
              ("   - Technical feature requests: " ++ str_of_nat technical_success
                 ++ "/" ++ str_of_nat (length technical_requests))%string;
              separator ].
Proof.
  intros Htok Hne Hall Hk.
  set (N := length domain_requests + length technical_requests) in *.
  assert (Hacc : count_replies reply_accepted net 0 N = N - k).
  { rewrite (count_replies_ext reply_accepted (fun rp => negb (reply_http_error rp))).
    - pose proof (count_replies_negb reply_http_error net 0 N). lia.
    - intros i Hi. unfold all_respond in Hall. rewrite forallb_forall in Hall.
      assert (Hin : In i (seq 0 N)) by (apply in_seq; lia).
      specialize (Hall i Hin). destruct (net i) as [r|]; [| discriminate].
      apply accepted_status. }
  unfold N in Hacc. rewrite count_replies_add in Hacc. cbn [Nat.add] in Hacc.
  intros domain_success technical_success. subst domain_success technical_success.
  rewrite (main_with_token _ _ _ _ Htok Hne), (create_all_responds _ _ _ _ Hall).
  cbn [snd]. unfold answered_trace.
  split; [exact Hacc |].
  split; [apply count_replies_le |]. split; [apply count_replies_le |].
  split.
  - rewrite !posts_app, !posts_batch_events, !posts_printed.
    cbn [app]. rewrite app_nil_r, length_app, !length_map. reflexivity.
  - eexists. rewrite !stdout_app, !stdout_printed. unfold summary.
    rewrite Hacc. fold N.
    change ("" :: ?l) with ([""%string] ++ l).
    rewrite !app_assoc. reflexivity.
Qed.

Lemma summary_totals_witness :
  count_replies reply_http_error net_alternating 0 25 = 12
  /\ length (posts (snd (run environ_with_token net_alternating))) = 25
  /\ exists before,
       stdout (snd (run environ_with_token net_alternating))
       = before
         ++ [ separator;
              "✅ Successfully created 13 out of 25 issues"%string;
              "   - Domain feature requests: 7/13"%string;
              "   - Technical feature requests: 6/12"%string;
              separator ].
Proof.
  split; [reflexivity |].
  assert (Hne : "ghp_example"%string <> ""%string) by discriminate.
  destruct (summary_totals get_domain_feature_requests
              get_technical_feature_requests environ_with_token "ghp_example"
              net_alternating 12 eq_refl Hne eq_refl eq_refl)
    as (_ & _ & _ & Hposts & Hout).
  split; [exact Hposts | exact Hout].
Defined.

(** C6, as stated, fails: every call is answered, exactly one answer is not
    2xx (a 304), and the summary reports 25 created out of 25, not 24. *)
Lemma not_modified_counted_in_total :
  let out := stdout (snd (run environ_with_token net_one_304)) in
  all_respond net_one_304 0 25 = true
  /\ count_replies (fun rp => negb (reply_2xx rp)) net_one_304 0 25 = 1
  /\ length out = 36
  /\ skipn 31 out
     = [ separator;
         "✅ Successfully created 25 out of 25 issues"%string;
         "   - Domain feature requests: 13/13"%string;
         "   - Technical feature requests: 12/12"%string;
         separator ].
Proof. intro out. vm_compute. repeat split. Qed.







(** ** Further properties of the script *)

Lemma length_posts_prints t lines :
  length (posts (t ++ map Printed lines)) = length (posts t).
Proof. rewrite posts_app, posts_printed, app_nil_r. reflexivity. Qed.

(** A run started after earlier calls: when every call is answered,
    [create_all] returns and adds the events of a whole run. *)
Lemma create_all_from domain_requests technical_requests token net t0 :
  all_respond net (length (posts t0))
    (length domain_requests + length technical_requests) = true ->
  create_all domain_requests technical_requests token net t0
  = (Returns tt,
     t0 ++ run_events domain_requests technical_requests token net
             (length (posts t0))).
Proof.
  intro H. rewrite all_respond_add in H.
  apply andb_true_iff in H. destruct H as [Hd Ht].
  unfold create_all. rewrite !bind_print.
  match goal with
  | |- bind _ _ net ?T = _ =>
      assert (E0 : T = t0 ++ map Printed opening)
        by (unfold opening; cbn [map]; rewrite <- !app_assoc; reflexivity);
      rewrite E0; clear E0
  end.
  pose proof (length_posts_prints t0 opening) as E0.
  rewrite <- E0 in Hd.
  rewrite (bind_returns _ _ _ _ _ _
             (count_created_responds domain_requests token 0 net _ Hd)).
  rewrite E0, !bind_print.
  match goal with
  | |- bind _ _ net ?T = _ =>
      assert (E1 : length (posts T) = length (posts t0) + length domain_requests)
  end.
  { rewrite !posts_app, posts_printed, posts_batch_events.
    rewrite !length_app, length_map. cbn. lia. }
  rewrite <- E1 in Ht.
  rewrite (bind_returns _ _ _ _ _ _
             (count_created_responds technical_requests token 0 net _ Ht)).
  rewrite E1, !bind_print. unfold print.
  unfold run_events, summary, separator, interlude.
  cbn [map Nat.add]. rewrite <- !app_assoc. reflexivity.
Qed.

(** X1. A completed run, event by event.  With the credential present and
    every call answered, [main] returns, and its trace is: the opening
    lines; for each domain entry in catalog order its request followed by
    its marker; the blank line and the technical heading; the same for each
    technical entry; the blank line and the summary.  The marker of an entry
    is printed before the request of the next entry is sent. *)
Theorem completed_run_trace domain_requests technical_requests environ token net :
  dict_get environ "GITHUB_TOKEN" = Some token ->
  token <> ""%string ->
  all_respond net 0 (length domain_requests + length technical_requests) = true ->
  main_with domain_requests technical_requests environ net []
  = (Returns tt,
     map Printed opening
     ++ batch_events token domain_requests net 0
     ++ map Printed interlude
     ++ batch_events token technical_requests net (length domain_requests)
     ++ map Printed
          ("" :: summary
                   (count_replies reply_accepted net 0 (length domain_requests))
                   (length domain_requests)
                   (count_replies reply_accepted net (length domain_requests)
                      (length technical_requests))
                   (length technical_requests))).
Proof.
  intros Htok Hne Hall.
  rewrite (main_with_token _ _ _ _ Htok Hne).
  exact (create_all_from domain_requests technical_requests token net [] Hall).
Qed.

Lemma completed_run_trace_witness :
  main_with [ mkRequestDict "A" "a" ] [ mkRequestDict "B" "b" ]
    environ_with_token net_alternating []
  = (Returns tt,
     map Printed opening
     ++ [ Posted (request_for "ghp_example" "A" "a" ["enhancement"]);
          Printed "✅ Created: A" ]
     ++ map Printed interlude
     ++ [ Posted (request_for "ghp_example" "B" "b" ["enhancement"]);
          Printed ("❌ Failed to create B: 422 Client Error: Unprocessable Entity"
                     ++ " for url: " ++ GITHUB_API_URL)%string;
          Printed "   Response: Validation Failed" ]
     ++ map Printed ("" :: summary 1 1 0 1)).
Proof.
  assert (Hne : "ghp_example"%string <> ""%string) by discriminate.
  exact (completed_run_trace [ mkRequestDict "A" "a" ] [ mkRequestDict "B" "b" ]
           environ_with_token "ghp_example" net_alternating eq_refl Hne eq_refl).
Defined.

(** X2. The script keeps nothing from one run to the next and never asks
    the service what exists.  Run a second time after a completed run, with
    every call of both runs answered, it returns again and sends the request
    of every entry once more: after the two runs each request has been sent
    twice. *)
Theorem second_run_repeats_requests domain_requests technical_requests environ
    token net :
  dict_get environ "GITHUB_TOKEN" = Some token ->
  token <> ""%string ->
  all_respond net 0
    (2 * (length domain_requests + length technical_requests)) = true ->
  let first := main_with domain_requests technical_requests environ net [] in
  let second := main_with domain_requests technical_requests environ net (snd first) in
  fst first = Returns tt
  /\ fst second = Returns tt
  /\ posts (snd second)
     = map (entry_request token) (domain_requests ++ technical_requests)
       ++ map (entry_request token) (domain_requests ++ technical_requests).
Proof.
  intros Htok Hne Hall first second. subst first second.
  set (N := length domain_requests + length technical_requests) in *.
  replace (2 * N) with (N + N) in Hall by lia.
  rewrite all_respond_add in Hall.
  apply andb_true_iff in Hall. destruct Hall as [H1 H2]. cbn [Nat.add] in H2.
  assert (P : forall start,
             posts (run_events domain_requests technical_requests token net start)
             = map (entry_request token) (domain_requests ++ technical_requests)).
  { intro start. unfold run_events.
    rewrite !posts_app, !posts_batch_events, !posts_printed, map_app.
    cbn [app]. rewrite app_nil_r. reflexivity. }
  rewrite (main_with_token _ _ _ _ Htok Hne).
  rewrite (create_all_from domain_requests technical_requests token net [] H1).
  cbn [fst snd app].
  assert (E : length (posts (run_events domain_requests technical_requests token net
                               (length (posts [])))) = N).
  { rewrite P, length_map, length_app. reflexivity. }
  assert (H2' : all_respond net
                  (length (posts (run_events domain_requests technical_requests
                                    token net (length (posts []))))) N = true)
    by (rewrite E; exact H2).
  rewrite (create_all_from domain_requests technical_requests token net _ H2').
  cbn [fst snd]. rewrite posts_app, !P. repeat split.
Qed.

Lemma second_run_repeats_requests_witness :
  length
    (posts (snd (main environ_with_token net_alternating
                   (snd (main environ_with_token net_alternating []))))) = 50.
Proof.
  assert (Hne : "ghp_example"%string <> ""%string) by discriminate.
  destruct (second_run_repeats_requests get_domain_feature_requests
              get_technical_feature_requests environ_with_token "ghp_example"
              net_alternating eq_refl Hne eq_refl) as (_ & _ & P).
  unfold main. rewrite P. reflexivity.
Defined.

(** The three ways a run can go: no usable credential, every call answered,
    or a first call that fails at the transport level. *)
Lemma run_cases domain_requests technical_requests environ net :
  (token_missing environ = true
   /\ main_with domain_requests technical_requests environ net []
      = (Raises (SystemExit 1), map Printed diagnostic))
  \/ (exists token,
        dict_get environ "GITHUB_TOKEN" = Some token
        /\ token <> ""%string
        /\ all_respond net 0 (length domain_requests + length technical_requests)
           = true
        /\ main_with domain_requests technical_requests environ net []
           = (Returns tt,
              run_events domain_requests technical_requests token net 0))
  \/ (exists token i kind msg t,
        dict_get environ "GITHUB_TOKEN" = Some token
        /\ token <> ""%string
        /\ i < length domain_requests + length technical_requests
        /\ all_respond net 0 i = true
        /\ net i = Fails kind msg
        /\ main_with domain_requests technical_requests environ net []
           = (Raises (TransportError kind msg), t)
        /\ posts t
           = map (entry_request token)
               (firstn (S i) (domain_requests ++ technical_requests))).
Proof.
  destruct (token_missing environ) eqn:Hm.
  - left. split; [reflexivity |].
    rewrite (main_with_missing _ _ _ Hm). apply abort_without_token_runs.
  - right. unfold token_missing in Hm.
    destruct (dict_get environ "GITHUB_TOKEN") as [token|] eqn:Htok; [| discriminate].
    apply String.eqb_neq in Hm.
    rewrite (main_with_token _ _ _ _ Htok Hm).
    destruct (all_respond net 0 (length domain_requests + length technical_requests))
      eqn:Hall.
    + left. exists token. repeat split; try assumption.
      exact (create_all_from domain_requests technical_requests token net [] Hall).
    + right. destruct (first_failure _ _ _ Hall) as (i & kind & msg & Hi & Hpre & Hf).
      destruct (create_all_fails domain_requests technical_requests token net i
                  kind msg Hi Hpre Hf) as (t & E & P).
      exists token, i, kind, msg, t. repeat split; assumption.
Qed.

(** X3. What can leave [main].  It returns only with a credential and every
    call answered; the only [SystemExit] it raises has code 1 and comes from
    the missing or empty credential; the only other exception that leaves
    it is the transport failure of the first call that was not answered.
    An [HTTPError] never leaves [main]: [create_issue] catches every one. *)
Theorem main_outcomes domain_requests technical_requests environ net :
  match fst (main_with domain_requests technical_requests environ net []) with
  | Returns _ =>
      token_missing environ = false
      /\ all_respond net 0 (length domain_requests + length technical_requests)
         = true
  | Raises (SystemExit code) => code = 1%Z /\ token_missing environ = true
  | Raises (TransportError kind msg) =>
      token_missing environ = false
      /\ exists i,
           i < length domain_requests + length technical_requests
           /\ all_respond net 0 i = true
           /\ net i = Fails kind msg
  | Raises (HTTPError _ _) => False
  end.
Proof.
  assert (Hm : forall token,
             dict_get environ "GITHUB_TOKEN" = Some token -> token <> ""%string ->
             token_missing environ = false).
  { intros token Htok Hne. unfold token_missing. rewrite Htok.
    apply String.eqb_neq. exact Hne. }
  destruct (run_cases domain_requests technical_requests environ net)
    as [(Hmiss & E) | [(token & Htok & Hne & Hall & E)
                      | (token & i & kind & msg & t & Htok & Hne & Hi & Hpre & Hf & E & _)]];
    rewrite E; cbn [fst].
  - split; [reflexivity | exact Hmiss].
  - split; [exact (Hm token Htok Hne) | exact Hall].
  - split; [exact (Hm token Htok Hne) |]. exists i. repeat split; assumption.
Qed.

(** X4. Whatever the environment holds and the network does, the requests
    of a run are those of the first [n] entries of the domain catalog
    followed by the technical catalog, for some [n]: the script sends
    nothing that is not in the catalogs, sends nothing twice, never
    reorders, and never skips an entry to send a later one.  Without a
    credential it sends nothing. *)
Theorem requests_follow_catalog domain_requests technical_requests environ net :
  match dict_get environ "GITHUB_TOKEN" with
  | None =>
      posts (snd (main_with domain_requests technical_requests environ net [])) = []
  | Some token =>
      exists n,
        n <= length domain_requests + length technical_requests
        /\ posts (snd (main_with domain_requests technical_requests environ net []))
           = map (entry_request token)
               (firstn n (domain_requests ++ technical_requests))
  end.
Proof.
  destruct (run_cases domain_requests technical_requests environ net)
    as [(Hmiss & E) | [(token & Htok & Hne & Hall & E)
                      | (token & i & kind & msg & t & Htok & Hne & Hi & Hpre & Hf & E & P)]];
    rewrite E; cbn [snd].
  - rewrite posts_printed.
    destruct (dict_get environ "GITHUB_TOKEN") as [token|]; [| reflexivity].
    exists 0. split; [lia | reflexivity].
  - rewrite Htok. exists (length domain_requests + length technical_requests).
    split; [lia |].
    rewrite <- length_app, firstn_all. unfold run_events.
    rewrite !posts_app, !posts_batch_events, !posts_printed, map_app.
    cbn [app]. rewrite app_nil_r. reflexivity.
  - rewrite Htok. exists (S i). split; [lia | exact P].
Qed.

(** X5. The split of the entries into two batches matters for the report
    only.  Running the script with all entries in the first batch and an
    empty second batch ends the same way and sends the same requests as
    running it with the two batches, whatever the environment holds and the
    network does. *)
Theorem regrouping_keeps_requests domain_requests technical_requests environ net :
  fst (main_with (domain_requests ++ technical_requests) [] environ net [])
  = fst (main_with domain_requests technical_requests environ net [])
  /\ posts (snd (main_with (domain_requests ++ technical_requests) [] environ net []))
     = posts (snd (main_with domain_requests technical_requests environ net [])).
Proof.
  assert (EN : length (domain_requests ++ technical_requests) + length (@nil request_dict)
               = length domain_requests + length technical_requests)
    by (rewrite length_app; cbn; lia).
  assert (P : forall d t token start,
             posts (run_events d t token net start)
             = map (entry_request token) (d ++ t)).
  { intros d t token start. unfold run_events.
    rewrite !posts_app, !posts_batch_events, !posts_printed, map_app.
    cbn [app]. rewrite app_nil_r. reflexivity. }
  destruct (run_cases domain_requests technical_requests environ net)
    as [(Hmiss & E) | [(token & Htok & Hne & Hall & E)
                      | (token & i & kind & msg & t & Htok & Hne & Hi & Hpre & Hf & E & Pt)]];
    rewrite E; cbn [fst snd].
  - rewrite (main_with_missing _ _ _ Hmiss), abort_without_token_runs.
    split; reflexivity.
  - rewrite (main_with_token _ _ _ _ Htok Hne).
    rewrite <- EN in Hall.
    rewrite (create_all_from (domain_requests ++ technical_requests) [] token net []
               Hall).
    cbn [fst snd app]. rewrite !P, app_nil_r. split; reflexivity.
  - rewrite (main_with_token _ _ _ _ Htok Hne).
    rewrite <- EN in Hi.
    destruct (create_all_fails (domain_requests ++ technical_requests) [] token net i
                kind msg Hi Hpre Hf) as (t' & E' & Pt').
    rewrite E'. cbn [fst snd]. rewrite Pt', Pt, app_nil_r. split; reflexivity.
Qed.

(** *** A run cut short *)

Lemma batch_markers_cut net requests : forall start i kind msg,
  i < length requests ->
  net (start + i) = Fails kind msg ->
  batch_markers (firstn (S i) requests) net start
  = batch_markers (firstn i requests) net start.
Proof.
  induction requests as [|rq rest IH]; intros start i kind msg Hi Hf.
  - cbn in Hi. lia.
  - destruct i as [|i].
    + rewrite Nat.add_0_r in Hf. cbn [firstn batch_markers]. rewrite Hf. reflexivity.
    + change (firstn (S (S i)) (rq :: rest)) with (rq :: firstn (S i) rest).
      change (firstn (S i) (rq :: rest)) with (rq :: firstn i rest).
      cbn [batch_markers]. f_equal.
      apply (IH (S start) i kind msg); [cbn in Hi; lia |].
      rewrite <- Hf. f_equal. lia.
Qed.

Lemma create_all_fails_stdout domain_requests technical_requests token net i kind msg :
  i < length domain_requests + length technical_requests ->
  all_respond net 0 i = true ->
  net i = Fails kind msg ->
  stdout (snd (create_all domain_requests technical_requests token net []))
  = interrupted_output domain_requests technical_requests net i.
Proof.
  intros Hi Hall Hf.
  assert (E0 : length (posts (map Printed opening)) = 0)
    by (rewrite posts_printed; reflexivity).
  unfold create_all, interrupted_output. rewrite !bind_print.
  match goal with
  | |- context [bind _ _ net ?T] => change T with (map Printed opening)
  end.
  destruct (i <? length domain_requests)%nat eqn:Hlt.
  - apply Nat.ltb_lt in Hlt.
    pose proof Hf as Hf0.
    rewrite <- E0 in Hall. rewrite <- (Nat.add_0_l i), <- E0 in Hf.
    rewrite (bind_raises _ _ _ _ _ _
               (count_created_fails domain_requests token 0 net _ i kind msg
                  Hlt Hall Hf)).
    cbn [snd]. rewrite stdout_app, stdout_printed, stdout_batch_events, E0.
    rewrite (batch_markers_cut net domain_requests 0 i kind msg Hlt Hf0).
    reflexivity.
  - apply Nat.ltb_ge in Hlt.
    remember (i - length domain_requests) as j eqn:Ej.
    assert (Ei : i = length domain_requests + j) by lia.
    rewrite Ei in Hall, Hf.
    pose proof Hf as Hf0.
    rewrite all_respond_add in Hall.
    apply andb_true_iff in Hall. destruct Hall as [Hd Ht]. cbn [Nat.add] in Ht.
    rewrite <- E0 in Hd.
    rewrite (bind_returns _ _ _ _ _ _
               (count_created_responds domain_requests token 0 net _ Hd)).
    rewrite E0, !bind_print.
    match goal with
    | |- context [bind _ _ net ?T] =>
        assert (E1 : length (posts T) = length domain_requests)
    end.
    { rewrite !posts_app, posts_printed, posts_batch_events.
      rewrite !length_app, length_map. cbn. lia. }
    rewrite <- E1 in Ht, Hf.
    assert (Hj : j < length technical_requests) by lia.
    rewrite (bind_raises _ _ _ _ _ _
               (count_created_fails technical_requests token 0 net _ j kind msg
                  Hj Ht Hf)).
    cbn [snd]. rewrite E1.
    rewrite !stdout_app, !stdout_batch_events, stdout_printed.
    rewrite (batch_markers_cut net technical_requests _ j kind msg Hj Hf0).
    unfold interlude. cbn [stdout flat_map app]. rewrite <- !app_assoc. reflexivity.
Qed.

Lemma batch_markers_not_summary net requests : forall start line,
  In line (batch_markers requests net start) -> is_summary_line line = false.
Proof.
  induction requests as [|rq rest IH]; intros start line Hin; [destruct Hin |].
  cbn [batch_markers] in Hin. apply in_app_or in Hin. destruct Hin as [Hin|Hin].
  - destruct (net start) as [r|]; [| destruct Hin].
    cbn [reply_marker] in Hin. unfold marker in Hin.
    destruct (http_error_msg r) as [e|]; cbn [In] in Hin;
      repeat (destruct Hin as [<-|Hin]; [reflexivity |]); destruct Hin.
  - exact (IH _ _ Hin).
Qed.

(** X7. What the operator sees of a run cut short.  When the call for entry
    [i] fails at the transport level, the output holds the opening lines and
    the markers of the entries before [i] (with the technical heading when
    [i] lies in the second batch) and stops there: no marker for entry [i],
    and no line of the summary, so the counts of the work already done are
    never shown. *)
Theorem interrupted_run_output domain_requests technical_requests environ
    token net i kind msg :
  dict_get environ "GITHUB_TOKEN" = Some token ->
  token <> ""%string ->
  i < length domain_requests + length technical_requests ->
  all_respond net 0 i = true ->
  net i = Fails kind msg ->
  stdout (snd (main_with domain_requests technical_requests environ net []))
  = interrupted_output domain_requests technical_requests net i
  /\ (forall line,
        In line (stdout (snd (main_with domain_requests technical_requests
                                environ net []))) ->
        is_summary_line line = false)
  /\ (forall a b c d line, In line (summary a b c d) -> is_summary_line line = true).
Proof.
  intros Htok Hne Hi Hall Hf.
  rewrite (main_with_token _ _ _ _ Htok Hne).
  rewrite (create_all_fails_stdout _ _ token net i kind msg Hi Hall Hf).
  split; [reflexivity |]. split.
  - intros line Hin. unfold interrupted_output in Hin.
    destruct (i <? length domain_requests)%nat;
      repeat (apply in_app_or in Hin; destruct Hin as [Hin|Hin]);
      try exact (batch_markers_not_summary _ _ _ _ Hin);
      cbn [opening interlude In] in Hin;
      repeat (destruct Hin as [<-|Hin]; [reflexivity |]); destruct Hin.
  - intros a b c d line Hin. unfold summary in Hin. cbn [In] in Hin.
    repeat (destruct Hin as [<-|Hin]; [reflexivity |]). destruct Hin.
Qed.

Lemma interrupted_run_output_witness :
  stdout (snd (run environ_with_token net_timeout_at_3))
  = opening
    ++ [ "✅ Created: FR-001: Notifications Module"%string;
         "✅ Created: FR-002: Waitlist When Sold Out"%string;
         "✅ Created: FR-003: User-Initiated Refund Requests"%string ].
Proof.
  assert (Hne : "ghp_example"%string <> ""%string) by discriminate.
  assert (Hi : 3 < length get_domain_feature_requests
                   + length get_technical_feature_requests) by (cbn; lia).
  exact (proj1 (interrupted_run_output get_domain_feature_requests
                  get_technical_feature_requests environ_with_token "ghp_example"
                  net_timeout_at_3 3 Timeout "Read timed out"
                  eq_refl Hne Hi eq_refl eq_refl)).
Defined.

(** *** The token *)

Lemma first_unanswered_none net : forall n start,
  first_unanswered net start n = None -> all_respond net start n = true.
Proof.
  induction n as [|n IH]; intros start H; [reflexivity |].
  cbn [first_unanswered] in H. rewrite all_respond_S.
  destruct (responds (net start)); [exact (IH _ H) | discriminate].
Qed.

Lemma first_unanswered_some net : forall n start i,
  first_unanswered net start n = Some i ->
  exists j kind msg,
    i = start + j /\ j < n /\ all_respond net start j = true
    /\ net i = Fails kind msg.
Proof.
  induction n as [|n IH]; intros start i H; [discriminate |].
  cbn [first_unanswered] in H.
  destruct (net start) as [r|kind msg] eqn:E; cbn [responds] in H.
  - destruct (IH _ _ H) as (j & kind & msg & Ei & Hj & Hall & Hf).
    exists (S j), kind, msg. repeat split; [lia | lia | | exact Hf].
    rewrite all_respond_S, E. exact Hall.
  - injection H as <-. exists 0, kind, msg.
    repeat split; [lia | lia | exact E].
Qed.

(** X6. Where the token goes.  In a run with a credential, every request
    sent carries the token as the value of the Authorization header, after
    the word Bearer, and nowhere else: the method, the URL, the payload and
    the two other headers are built without it.  The console output is
    built without it too: it is a function of the catalogs and of the
    replies, the whole report when every call is answered and the report
    cut at the first unanswered call otherwise. *)
Theorem token_only_in_authorization domain_requests technical_requests environ
    token net :
  dict_get environ "GITHUB_TOKEN" = Some token ->
  token <> ""%string ->
  stdout (snd (main_with domain_requests technical_requests environ net []))
  = run_output domain_requests technical_requests net
  /\ exists n,
       posts (snd (main_with domain_requests technical_requests environ net []))
       = map (fun request =>
                {| req_method := POST;
                   req_url := GITHUB_API_URL;
                   req_json := [ ("title", JString (title request));
                                 ("body", JString (body request));
                                 ("labels", JArray ["enhancement"]) ];
                   req_headers := [ ("Authorization", ("Bearer " ++ token)%string);
                                    ("Accept", "application/vnd.github+json");
                                    ("X-GitHub-Api-Version", "2022-11-28") ] |})
           (firstn n (domain_requests ++ technical_requests)).
Proof.
  intros Htok Hne. rewrite (main_with_token _ _ _ _ Htok Hne).
  unfold run_output.
  destruct (first_unanswered net 0
              (length domain_requests + length technical_requests)) as [i|] eqn:Ef.
  - destruct (first_unanswered_some _ _ _ _ Ef) as (j & kind & msg & Ei & Hj & Hall & Hf).
    cbn [Nat.add] in Ei. subst j.
    split.
    + exact (create_all_fails_stdout _ _ token net i kind msg Hj Hall Hf).
    + destruct (create_all_fails domain_requests technical_requests token net i
                  kind msg Hj Hall Hf) as (t & E & P).
      rewrite E. cbn [snd]. exists (S i). exact P.
  - pose proof (first_unanswered_none _ _ _ Ef) as Hall.
    rewrite (create_all_responds _ _ _ _ Hall). cbn [snd]. unfold answered_trace.
    split.
    + rewrite !stdout_app, !stdout_batch_events, !stdout_printed. reflexivity.
    + exists (length (domain_requests ++ technical_requests)).
      rewrite firstn_all.
      rewrite !posts_app, !posts_batch_events, !posts_printed, map_app.
      cbn [app]. rewrite app_nil_r. reflexivity.
Qed.

Lemma token_only_in_authorization_witness :
  stdout (snd (run environ_with_token net_timeout_at_3))
  = run_output get_domain_feature_requests get_technical_feature_requests
      net_timeout_at_3
  /\ run_output get_domain_feature_requests get_technical_feature_requests
       net_timeout_at_3
     = opening
       ++ [ "✅ Created: FR-001: Notifications Module"%string;
            "✅ Created: FR-002: Waitlist When Sold Out"%string;
            "✅ Created: FR-003: User-Initiated Refund Requests"%string ].
Proof.
  assert (Hne : "ghp_example"%string <> ""%string) by discriminate.
  split; [| reflexivity].
  exact (proj1 (token_only_in_authorization get_domain_feature_requests
                  get_technical_feature_requests environ_with_token "ghp_example"
                  net_timeout_at_3 eq_refl Hne)).
Defined.

(** *** Markers and counts *)

Lemma batch_markers_counts net requests : forall start,
  length (filter is_success_marker (batch_markers requests net start))
  = count_replies reply_accepted net start (length requests)
  /\ length (filter is_failure_marker (batch_markers requests net start))
     = count_replies (fun rp => responds rp && negb (reply_accepted rp)) net start
         (length requests).
Proof.
  induction requests as [|rq rest IH]; intro start; [split; reflexivity |].
  cbn [batch_markers length]. rewrite !filter_app, !length_app, !count_replies_S.
  destruct (IH (S start)) as [IHs IHf]. rewrite IHs, IHf.
  destruct (net start) as [r|kind msg]; cbn [reply_marker reply_accepted responds andb].
  - unfold marker, accepted. destruct (http_error_msg r) as [e|]; split; reflexivity.
  - split; reflexivity.
Qed.

(** X8. The count agrees with the markers.  Over a batch whose calls are all
    answered, the number the loop returns is the number of success markers
    it printed, and the entries it did not count are as many as the failure
    markers it printed. *)
Theorem count_matches_markers requests token net t :
  all_respond net (length (posts t)) (length requests) = true ->
  exists succeeded t' printed,
    count_created requests token 0 net t = (Returns succeeded, t')
    /\ stdout t' = stdout t ++ printed
    /\ length (filter is_success_marker printed) = succeeded
    /\ length (filter is_failure_marker printed) = length requests - succeeded.
Proof.
  intro Hall.
  rewrite (count_created_responds requests token 0 net t Hall).
  do 3 eexists. split; [reflexivity |].
  rewrite stdout_app, stdout_batch_events. split; [reflexivity |].
  destruct (batch_markers_counts net requests (length (posts t))) as [Hs Hf].
  split; [exact Hs |]. rewrite Hf. cbn [Nat.add].
  rewrite (count_replies_ext _ (fun rp => negb (reply_accepted rp))).
  - pose proof (count_replies_negb reply_accepted net (length (posts t))
                  (length requests)). lia.
  - intros i Hi. unfold all_respond in Hall. rewrite forallb_forall in Hall.
    rewrite (Hall i) by (apply in_seq; lia). reflexivity.
Qed.

Lemma count_matches_markers_witness :
  all_respond net_alternating (length (posts (map Printed opening)))
    (length get_domain_feature_requests) = true
  /\ exists succeeded t' printed,
       count_created get_domain_feature_requests "ghp_example" 0 net_alternating
         (map Printed opening) = (Returns succeeded, t')
       /\ stdout t' = stdout (map Printed opening) ++ printed
       /\ length (filter is_success_marker printed) = succeeded
       /\ length (filter is_failure_marker printed)
          = length get_domain_feature_requests - succeeded.
Proof.
  split; [reflexivity |].
  exact (count_matches_markers get_domain_feature_requests "ghp_example"
           net_alternating (map Printed opening) eq_refl).
Defined.

(** X9. How a rejected entry is reported.  When the response has a client or
    server error status, [create_issue] sends its one request, prints the
    failure line with the title, the status code, the kind of error, the
    reason and the URL, prints the response body as it came, and returns
    [False]; it raises nothing. *)
Theorem http_error_report title body labels token net t r :
  net (length (posts t)) = Responds r ->
  (400 <= status_code r < 600)%Z ->
  create_issue title body labels token net t
  = (Returns false,
     t ++ [ Posted (request_for token title body labels);
            Printed ("❌ Failed to create " ++ title ++ ": "
                       ++ str_of_Z (status_code r)
                       ++ (if (status_code r <? 500)%Z
                           then " Client Error: " else " Server Error: ")
                       ++ reason r ++ " for url: " ++ url r)%string;
            Printed ("   Response: " ++ text r)%string ]).
Proof.
  intros H Hs. rewrite (create_issue_responds _ _ _ _ _ _ _ H).
  unfold accepted, marker, http_error_msg.
  destruct (400 <=? status_code r)%Z eqn:E1; [| lia].
  destruct (status_code r <? 500)%Z eqn:E2; cbn [andb].
  - reflexivity.
  - destruct (500 <=? status_code r)%Z eqn:E3; [| lia].
    destruct (status_code r <? 600)%Z eqn:E4; [| lia].
    reflexivity.
Qed.

Lemma http_error_report_witness :
  create_issue "FR-001: Notifications Module" "## Problem" ["enhancement"]
    "ghp_example" (fun _ => Responds unprocessable_422) []
  = (Returns false,
     [ Posted (request_for "ghp_example" "FR-001: Notifications Module"
                 "## Problem" ["enhancement"]);
       Printed ("❌ Failed to create FR-001: Notifications Module: "
                  ++ "422 Client Error: Unprocessable Entity for url: "
                  ++ GITHUB_API_URL)%string;
       Printed "   Response: Validation Failed" ]).
Proof.
  apply (http_error_report "FR-001: Notifications Module" "## Problem"
           ["enhancement"] "ghp_example" (fun _ => Responds unprocessable_422) []
           unprocessable_422 eq_refl).
  cbn. lia.
Defined.

(** *** The catalogs *)

Lemma distinctb_NoDup (l : list string) : distinctb l = true -> NoDup l.
Proof.
  induction l as [|x rest IH]; intro H; [constructor |].
  cbn [distinctb] in H. apply andb_true_iff in H. destruct H as [Hx Hrest].
  constructor; [| exact (IH Hrest)].
  intro Hin. apply negb_true_iff in Hx.
  assert (Hex : existsb (String.eqb x) rest = true).
  { apply existsb_exists. exists x. split; [exact Hin | apply String.eqb_refl]. }
  rewrite Hex in Hx. discriminate.
Qed.

Lemma NoDup_firstn {A : Type} (l : list A) n : NoDup l -> NoDup (firstn n l).
Proof.
  intro H. rewrite <- (firstn_skipn n l) in H.
  exact (NoDup_app_remove_r _ _ H).
Qed.

(** X10. No issue is filed twice in one run.  The titles of the 25 catalog
    entries are pairwise different, so the requests one run of the script
    sends are pairwise different, whatever the environment holds and the
    network does. *)
Theorem run_sends_no_duplicate environ net :
  NoDup (map title (get_domain_feature_requests ++ get_technical_feature_requests))
  /\ NoDup (posts (snd (main environ net []))).
Proof.
  assert (Ht : NoDup (map title (get_domain_feature_requests
                                   ++ get_technical_feature_requests)))
    by (apply distinctb_NoDup; vm_compute; reflexivity).
  split; [exact Ht |].
  assert (Hrq : forall token n,
             NoDup (map (entry_request token)
                      (firstn n (get_domain_feature_requests
                                   ++ get_technical_feature_requests)))).
  { intros token n.
    apply (NoDup_map_inv
             (fun rq => match req_json rq with
                        | (_, JString s) :: _ => s
                        | _ => ""%string
                        end)).
    rewrite map_map. cbn [entry_request request_for req_json].
    rewrite <- firstn_map. apply NoDup_firstn. exact Ht. }
  unfold main.
  destruct (run_cases get_domain_feature_requests get_technical_feature_requests
              environ net)
    as [(_ & E) | [(token & _ & _ & _ & E) | (token & i & kind & msg & t & _ & _ & _ & _ & _ & E & P)]];
    rewrite E; cbn [snd].
  - rewrite posts_printed. constructor.
  - unfold run_events.
    rewrite !posts_app, !posts_batch_events, !posts_printed.
    cbn [app]. rewrite app_nil_r, <- map_app.
    rewrite <- (firstn_all (get_domain_feature_requests
                              ++ get_technical_feature_requests)) at 1.
    apply Hrq.
  - rewrite P. apply Hrq.
Qed.

(** *** One call, in every case *)

(** X11. What [create_issue] can do.  It always sends exactly one request.
    It returns exactly when the call is answered, with [True] for a status
    outside 400..599 and [False] inside; when the transport fails it prints
    nothing and lets that exception through.  It never raises [HTTPError]
    and never exits the process. *)
Theorem create_issue_outcomes title body labels token net t :
  length (posts (snd (create_issue title body labels token net t)))
  = S (length (posts t))
  /\ match fst (create_issue title body labels token net t) with
     | Returns created =>
         exists r,
           net (length (posts t)) = Responds r
           /\ created = negb (is_4xx_5xx r)
     | Raises (TransportError kind msg) =>
         net (length (posts t)) = Fails kind msg
         /\ stdout (snd (create_issue title body labels token net t)) = stdout t
     | Raises (HTTPError _ _) => False
     | Raises (SystemExit _) => False
     end.
Proof.
  destruct (net (length (posts t))) as [r|kind msg] eqn:E.
  - rewrite (create_issue_responds _ _ _ _ _ _ _ E). cbn [fst snd].
    split; [apply posts_after_call |].
    exists r. split; [reflexivity | apply accepted_status].
  - rewrite (create_issue_fails _ _ _ _ _ _ _ _ E). cbn [fst snd].
    split.
    + rewrite posts_app, length_app. cbn. lia.
    + split; [reflexivity |]. rewrite stdout_app. cbn. apply app_nil_r.
Qed.
